(** * Tool registry and dispatcher

    A shallow embedding of [js/tools/tool-manager.js] (class [ToolManager])
    and [js/tools/email-sender.js] (class [EmailSenderTool]), and the
    properties of registration, declaration aggregation and dispatch.

    JavaScript is modelled as follows.
    - Data values ([JS.value]) are the JSON-like values that travel through
      the dispatcher: [undefined], [null], booleans, numbers (integers only;
      [Num n] is the Number value for [n], the nearest double), strings,
      arrays and plain objects (ordered lists of own data properties).
    - A thrown value ([JS.thrown]) is either an error object of a known class
      with its message, or arbitrary data ([throw v]).
    - A synchronous computation is a function from a state to a completion
      (normal or abrupt), the state it leaves and the lines it has logged
      ([Eff.M]); an [async] function is observed at the point where its
      promise settles ([JS.outcome]).
    - The logger is write-only: code emits lines and never reads them back.
    - The [Map] of the registry is an insertion-ordered association list. *)

From Stdlib Require Import ZArith String Ascii List Bool Lia DecimalString.
Import ListNotations.
Local Open Scope string_scope.

(** ** [utils/error-boundary.js] *)

Module ErrorBoundary.

(** Modelled from the spec: [ErrorCodes] of [utils/error-boundary.js] is not
    part of the sources at hand.  Only the two members the registry names
    are represented; the spec asks that the code of an error be
    "programmatically inspectable", which a constructor is. *)
Inductive ErrorCodes : Type :=
| INVALID_STATE
| INVALID_PARAMETER.

End ErrorBoundary.

(** ** JavaScript values *)

Module JS.

#[warnings="-register-all"]
Inductive value : Type :=
| Undefined
| Null
| Bool (b : bool)
| Num (n : Z)
| Str (s : string)
| Arr (elems : list value)
| Obj (props : list (string * value)).

(** The class of an error object. [ApplicationErrorC] is the class
    [ApplicationError] of [utils/error-boundary.js]. *)
Inductive errorClass : Type :=
| ErrorC
| TypeErrorC
| ApplicationErrorC (code : ErrorBoundary.ErrorCodes).

Inductive thrown : Type :=
| ErrorObject (cls : errorClass) (message : string)
| Raised (v : value).

(** [new Error(message)] *)
Definition Error (message : string) : thrown := ErrorObject ErrorC message.

(** A [TypeError] raised by the engine itself.  The texts are those of V8;
    no property below depends on them. *)
Definition TypeError (message : string) : thrown := ErrorObject TypeErrorC message.

(** Modelled from the spec: the constructor of [ApplicationError]
    ([utils/error-boundary.js], not part of the sources at hand) keeps the
    message and the code it is given. *)
Definition ApplicationError (message : string) (code : ErrorBoundary.ErrorCodes) : thrown :=
  ErrorObject (ApplicationErrorC code) message.

Inductive completion (A : Type) : Type :=
| Normal (a : A)
| Throw (e : thrown).
Arguments Normal {A} a.
Arguments Throw {A} e.

(** How a promise settles. *)
Inductive outcome : Type :=
| Fulfilled (v : value)
| Rejected (e : thrown).

(** [ToBoolean], as used by [if], [!], [? :] and [||]. *)
Definition ToBoolean (v : value) : bool :=
  match v with
  | Undefined | Null => false
  | Bool b => b
  | Num n => negb (n =? 0)%Z
  | Str s => negb (s =? "")
  | Arr _ | Obj _ => true
  end.

(** [a || b] *)
Definition or_else (a b : value) : value := if ToBoolean a then a else b.

(** The Number value for a natural number: the nearest double, ties to
    the even significand. *)
Definition to_double (a : Z) : Z :=
  let bits := (Z.log2 a + 1)%Z in
  if (bits <=? 53)%Z then a
  else
    let sh := (bits - 53)%Z in
    let q := Z.shiftr a sh in
    let r := (a - Z.shiftl q sh)%Z in
    let half := Z.shiftl 1 (sh - 1) in
    let q' := if (half <? r)%Z || ((r =? half)%Z && Z.odd q) then (q + 1)%Z else q in
    Z.shiftl q' sh.

Definition decimal (a : Z) : string := NilZero.string_of_int (Z.to_int a).

Definition digits (a : Z) : Z := Z.of_nat (String.length (decimal a)).

(** The decimal with the fewest significant digits whose Number value is
    [x]: the closest to [x] among those, and the even one on a tie.  A
    double needs seventeen digits at most. *)
Fixpoint shortest (fuel : nat) (k : Z) (x : Z) : Z :=
  match fuel with
  | O => x
  | S fuel' =>
      if (digits x <=? k)%Z then x
      else
        let p := (10 ^ (digits x - k))%Z in
        let lo := (x / p * p)%Z in
        let hi := (lo + p)%Z in
        let lo_ok := (to_double lo =? x)%Z in
        let hi_ok := (to_double hi =? x)%Z in
        if lo_ok && hi_ok then
          if (x - lo <? hi - x)%Z then lo
          else if (hi - x <? x - lo)%Z then hi
          else if Z.even (x / p) then lo else hi
        else if lo_ok then lo
        else if hi_ok then hi
        else shortest fuel' (k + 1)%Z x
  end.

Fixpoint drop_zeros (s : string) : string :=
  match s with
  | EmptyString => EmptyString
  | String c rest =>
      match drop_zeros rest with
      | EmptyString =>
          if Ascii.eqb c "0"%char then EmptyString else String c EmptyString
      | rest' => String c rest'
      end
  end.

(** [Number::toString] in radix 10, for the Number value of an integer:
    all the digits up to twenty-one of them, the exponent form beyond. *)
Definition Number_toString (n : Z) : string :=
  let x := to_double (Z.abs n) in
  let sign := if (n <? 0)%Z then "-" else "" in
  if (x =? 0)%Z then "0"
  else if (2 ^ 1024 <=? x)%Z then sign ++ "Infinity"
  else
    let v := shortest 17 1 x in
    if (digits v <=? 21)%Z then sign ++ decimal v
    else
      let exponent := decimal (digits v - 1) in
      match drop_zeros (decimal v) with
      | String d EmptyString => sign ++ String d EmptyString ++ "e+" ++ exponent
      | String d rest =>
          sign ++ String d EmptyString ++ "." ++ rest ++ "e+" ++ exponent
      | EmptyString => sign ++ "0"
      end.

(** [key] is an own property of the object. *)
Definition has_key (key : string) (props : list (string * value)) : bool :=
  existsb (fun p => fst p =? key) props.

(** [Array.prototype.join] over a conversion of the elements: [undefined]
    and [null] give the empty string, the first element that cannot be
    converted aborts the join. *)
Definition join_with (to_string : value -> completion string) (sep : string)
  : list value -> completion string :=
  fix go (elems : list value) : completion string :=
    match elems with
    | [] => Normal ""
    | e :: rest =>
        match (match e with
               | Undefined | Null => Normal ""
               | _ => to_string e
               end) with
        | Throw x => Throw x
        | Normal s =>
            match rest with
            | [] => Normal s
            | _ :: _ =>
                match go rest with
                | Normal t => Normal (s ++ sep ++ t)
                | Throw x => Throw x
                end
            end
        end
    end.

(** [ToString], as used by template literals and [Array.prototype.join].
    A plain object is converted by the [toString] it inherits, unless it
    has an own property of that name: such a property holds data, not a
    function, [valueOf] does not yield a primitive either, and the
    conversion throws. *)
Fixpoint ToString (v : value) : completion string :=
  match v with
  | Undefined => Normal "undefined"
  | Null => Normal "null"
  | Bool true => Normal "true"
  | Bool false => Normal "false"
  | Num n => Normal (Number_toString n)
  | Str s => Normal s
  | Arr elems => join_with ToString "," elems
  | Obj props =>
      if has_key "toString" props
      then Throw (TypeError "Cannot convert object to primitive value")
      else Normal "[object Object]"
  end.

(** [elems.join(sep)] on an array *)
Definition join (sep : string) (elems : list value) : completion string :=
  join_with ToString sep elems.

Fixpoint lookup (key : string) (props : list (string * value)) : value :=
  match props with
  | [] => Undefined
  | (k, v) :: rest => if k =? key then v else lookup key rest
  end.

Definition isNullish (v : value) : bool :=
  match v with
  | Undefined | Null => true
  | _ => false
  end.

(** [v.key] for a data value [v].  Reading a property of [undefined] or
    [null] throws; a plain object yields its own property; the other
    values have none of the data properties the sources read. *)
Definition get (v : value) (key : string) : completion value :=
  match v with
  | Undefined =>
      Throw (TypeError ("Cannot read properties of undefined (reading '" ++ key ++ "')"))
  | Null =>
      Throw (TypeError ("Cannot read properties of null (reading '" ++ key ++ "')"))
  | Obj props => Normal (lookup key props)
  | _ => Normal Undefined
  end.

(** [error.message] for the value bound by a [catch] clause. *)
Definition message_of (error : thrown) : completion value :=
  match error with
  | ErrorObject _ message => Normal (Str message)
  | Raised v => get v "message"
  end.

Definition thrownNullish (error : thrown) : bool :=
  match error with
  | ErrorObject _ _ => false
  | Raised v => isNullish v
  end.

End JS.

(** ** Computations with state, exceptions and a log *)

Module Eff.
Import JS.

Section Monad.
(** [L] is the type of the lines a computation emits. *)
Context {L : Type}.

Definition M (S A : Type) : Type := S -> completion A * S * list L.

(** An [async] function or a promise-returning call, seen when it settles. *)
Definition Async (S : Type) : Type := S -> outcome * S * list L.

Definition ret {S A} (a : A) : M S A := fun s => (Normal a, s, []).

Definition bind {S A B} (c : M S A) (k : A -> M S B) : M S B :=
  fun s =>
    match c s with
    | (Normal a, s1, l1) => let '(r, s2, l2) := k a s1 in (r, s2, l1 ++ l2)%list
    | (Throw e, s1, l1) => (Throw e, s1, l1)
    end.

Definition throw {S A} (e : thrown) : M S A := fun s => (Throw e, s, []).

(** [try { body } catch (error) { handler }] *)
Definition tryCatch {S A} (body : M S A) (handler : thrown -> M S A) : M S A :=
  fun s =>
    match body s with
    | (Normal a, s1, l1) => (Normal a, s1, l1)
    | (Throw e, s1, l1) => let '(r, s2, l2) := handler e s1 in (r, s2, l1 ++ l2)%list
    end.

Definition gets {S A} (f : S -> A) : M S A := fun s => (Normal (f s), s, []).

Definition modify {S} (f : S -> S) : M S unit := fun s => (Normal tt, f s, []).

(** Emit one line. *)
Definition tell {S} (line : L) : M S unit := fun s => (Normal tt, s, [line]).

(** A completion that needs no state. *)
Definition pure {S A} (c : completion A) : M S A := fun s => (c, s, []).

(** [await p]: a rejection is thrown at the [await]. *)
Definition await {S} (p : Async S) : M S value :=
  fun s =>
    match p s with
    | (Fulfilled v, s1, l1) => (Normal v, s1, l1)
    | (Rejected e, s1, l1) => (Throw e, s1, l1)
    end.

(** The promise of an [async] function: a normal completion of the body
    fulfils it, an abrupt one rejects it. *)
Definition async {S} (body : M S value) : Async S :=
  fun s =>
    match body s with
    | (Normal v, s1, l1) => (Fulfilled v, s1, l1)
    | (Throw e, s1, l1) => (Rejected e, s1, l1)
    end.

(** Run a promise-returning call on a component of the state. *)
Definition zoom {S T} (proj : S -> T) (upd : T -> S -> S) (p : Async T) : Async S :=
  fun s => let '(r, t1, l1) := p (proj s) in (r, upd t1 s, l1).

End Monad.
Arguments M L S A : clear implicits.
Arguments Async L S : clear implicits.

End Eff.

Declare Scope eff_scope.
Delimit Scope eff_scope with eff.
Notation "x <- c ;; k" := (Eff.bind c (fun x => k))
(at level 61, c at next level, right associativity) : eff_scope.
Notation "c ;; k" := (Eff.bind c (fun _ => k))
(at level 61, right associativity) : eff_scope.
Notation "' pat <- c ;; k" := (Eff.bind c (fun x => match x with pat => k end))
(at level 61, pat pattern, c at next level, right associativity) : eff_scope.

Local Open Scope eff_scope.

(** ** [utils/logger.js] *)

Module Logger.
Import JS.

Inductive line : Type :=
| Info (message : string) (context : value)
| Error (message : string) (cause : thrown).

(** Computations that log. *)
Definition M : Type -> Type -> Type := Eff.M line.
Definition Async : Type -> Type := Eff.Async line.

(** Modelled from the spec: [Logger] of [utils/logger.js] is not part of the
    sources at hand; [info(message, context?)] and
    [error(message, causeOrContext)] are "fire-and-forget, never throws,
    never blocks dispatch semantics".  A call emits one line and has no
    other effect; nothing reads the lines back. *)
Definition info {S} (message : string) (context : value) : M S unit :=
  Eff.tell (Info message context).

Definition error {S} (message : string) (cause : thrown) : M S unit :=
  Eff.tell (Error message cause).

End Logger.

(** ** Tool instances *)

Module Tool.
Import JS.

(** A member of an object: a data value (an absent member reads as
    [Undefined]) or a function. *)
Inductive member (F : Type) : Type :=
| Data (v : value)
| Method (f : F).
Arguments Data {F} v.
Arguments Method {F} f.

Definition absent {F} : member F := Data Undefined.

(** [getDeclaration()] is synchronous and reads no state (the one of
    [EmailSenderTool] returns a literal); it may throw. *)
Definition getDeclaration_fn : Type := completion value.

(** [execute(args)], observed through [await]: [Fulfilled v] stands for a
    promise fulfilled with [v] or a plain return of [v], [Rejected e] for a
    promise rejected with [e] or a synchronous [throw e].  A tool acts on
    the services it talks to, whose state has a type [World] left open, and
    may log. *)
Definition execute_fn (World : Type) : Type := value -> Logger.Async World.

(** What [registerTool] may be handed: any data value, or an object with the
    two members the registry looks at. *)
Inductive toolInstance (World : Type) : Type :=
| Plain (v : value)
| Instance (getDeclaration : member getDeclaration_fn)
           (execute : member (execute_fn World)).
Arguments Plain {World} v.
Arguments Instance {World} getDeclaration execute.

Section Members.
Context {World : Type}.

(** [ToBoolean(m)] for a member: a function is an object, hence truthy. *)
Definition member_truthy {F} (m : member F) : bool :=
  match m with
  | Data v => ToBoolean v
  | Method _ => true
  end.

(** [ToBoolean(tool)] *)
Definition truthy (tool : toolInstance World) : bool :=
  match tool with
  | Plain v => ToBoolean v
  | Instance _ _ => true
  end.

(** [tool.getDeclaration] *)
Definition get_getDeclaration (tool : toolInstance World)
  : completion (member getDeclaration_fn) :=
  match tool with
  | Plain v =>
      match get v "getDeclaration" with
      | Normal p => Normal (Data p)
      | Throw e => Throw e
      end
  | Instance g _ => Normal g
  end.

(** [tool.execute] *)
Definition get_execute (tool : toolInstance World)
  : completion (member (execute_fn World)) :=
  match tool with
  | Plain v =>
      match get v "execute" with
      | Normal p => Normal (Data p)
      | Throw e => Throw e
      end
  | Instance _ e => Normal e
  end.

(** [tool.getDeclaration()] once [tool.getDeclaration] has been read. *)
Definition call_getDeclaration (m : member getDeclaration_fn) : completion value :=
  match m with
  | Method f => f
  | Data _ => Throw (TypeError "tool.getDeclaration is not a function")
  end.

(** [tool.execute(args)] once [tool.execute] has been read. *)
Definition call_execute (m : member (execute_fn World)) (args : value)
  : Logger.Async World :=
  match m with
  | Method f => f args
  | Data _ => fun w => (Rejected (TypeError "tool.execute is not a function"), w, [])
  end.

End Members.

End Tool.

(** ** The [Map] of the registry *)

Module Map.

(** Keys in insertion order; a key occurs once in a map built with [set]. *)
Definition t (V : Type) : Type := list (string * V).

Definition empty {V} : t V := [].

Fixpoint get {V} (key : string) (m : t V) : option V :=
  match m with
  | [] => None
  | (k, v) :: rest => if k =? key then Some v else get key rest
  end.

Definition has {V} (key : string) (m : t V) : bool :=
  match get key m with
  | Some _ => true
  | None => false
  end.

(** [set] keeps the place of a key that is present and appends a new one. *)
Fixpoint set {V} (key : string) (v : V) (m : t V) : t V :=
  match m with
  | [] => [(key, v)]
  | (k, v0) :: rest =>
      if k =? key then (k, v) :: rest else (k, v0) :: set key v rest
  end.

(** [m.forEach((value, key) => ...)] *)
Fixpoint forEach {L S V} (callback : V -> string -> Eff.M L S unit) (m : t V)
  : Eff.M L S unit :=
  match m with
  | [] => Eff.ret tt
  | (k, v) :: rest => callback v k ;; forEach callback rest
  end.

Definition keys {V} (m : t V) : list string := map fst m.

Definition size {V} (m : t V) : nat := length m.

End Map.

(** ** [js/tools/email-sender.js] *)

Module EmailSenderTool.
Import JS Tool.

(** The [nodemailer] package: [createTransport(options)] yields a
    transporter, whose [sendMail(mailOptions)] returns a promise. *)
Record Transporter (World : Type) : Type := mkTransporter {
  sendMail : value -> Logger.Async World
}.
Arguments mkTransporter {World} sendMail.
Arguments sendMail {World} t mailOptions.

Record Nodemailer (World : Type) : Type := mkNodemailer {
  createTransport : value -> completion (Transporter World)
}.
Arguments mkNodemailer {World} createTransport.
Arguments createTransport {World} n options.

(** [process.env.EMAIL_USER] and [process.env.EMAIL_PASSWORD] (a string, or
    [Undefined] when the variable is not set), and the two literals the
    source falls back to, which are configuration and are left open here. *)
Record Process : Type := mkProcess {
  EMAIL_USER : value;
  EMAIL_PASSWORD : value;
  fallback_user : string;
  fallback_password : string
}.

(** [getDeclaration()] *)
Definition getDeclaration : value :=
  Obj [
    ("name", Str "emailSender");
    ("description", Str "Sends an email to one or more recipients.");
    ("parameters", Obj [
      ("type", Str "object");
      ("properties", Obj [
        ("recipients", Obj [
          ("type", Str "array");
          ("items", Obj [("type", Str "string"); ("format", Str "email")]);
          ("description", Str "An array of email addresses to send the email to.")]);
        ("subject", Obj [
          ("type", Str "string");
          ("description", Str "The subject line of the email.")]);
        ("body", Obj [
          ("type", Str "string");
          ("description", Str "The content of the email.")]);
        ("attachment", Obj [
          ("type", Str "string");
          ("description",
           Str "File to be attached, must be a URL or a base64 encoded string.")])]);
      ("required", Arr [Str "recipients"; Str "subject"; Str "body"])])].

(** [const { recipients, subject, body, attachment } = args]: the pattern
    throws on [undefined] and [null] and reads the four properties
    otherwise. *)
Definition destructure (args : value) : completion (value * value * value * value) :=
  if isNullish args then
    Throw (TypeError ("Cannot destructure property 'recipients' of 'args' as it is "
                      ++ (match args with Null => "null" | _ => "undefined" end)
                      ++ "."))
  else
    match get args "recipients", get args "subject",
          get args "body", get args "attachment" with
    | Normal recipients, Normal subject, Normal body, Normal attachment =>
        Normal (recipients, subject, body, attachment)
    | Throw e, _, _, _ | _, Throw e, _, _ | _, _, Throw e, _ | _, _, _, Throw e =>
        Throw e
    end.

(** [recipients.join(', ')]: only an array has the method, and it throws
    on an element that cannot be converted. *)
Definition recipients_join (recipients : value) : completion string :=
  match recipients with
  | Arr elems => join ", " elems
  | Undefined => Throw (TypeError "Cannot read properties of undefined (reading 'join')")
  | Null => Throw (TypeError "Cannot read properties of null (reading 'join')")
  | _ => Throw (TypeError "recipients.join is not a function")
  end.

Definition prefix : string := "Failed to send email: ".

Section Execute.
Context {World : Type}.
Variable nodemailer : Nodemailer World.
Variable process : Process.

(** The [try] block of [execute].  The substitutions of the template
    literal are converted from left to right, after the mail has gone. *)
Definition send (args : value) : Logger.M World value :=
  Logger.info "Executing emailSender" args ;;
  '(recipients, subject, body, attachment) <- Eff.pure (destructure args) ;;
  transporter <- Eff.pure (createTransport nodemailer (Obj [
    ("service", Str "gmail");
    ("auth", Obj [
      ("user", or_else (EMAIL_USER process) (Str (fallback_user process)));
      ("pass", or_else (EMAIL_PASSWORD process) (Str (fallback_password process)))])])) ;;
  to <- Eff.pure (recipients_join recipients) ;;
  let mailOptions := Obj [
    ("from", or_else (EMAIL_USER process) (Str (fallback_user process)));
    ("to", Str to);
    ("subject", subject);
    ("text", body);
    ("attachments",
     if ToBoolean attachment
     then Arr [Obj [("filename", Str "attachment"); ("path", attachment)]]
     else Arr [])] in
  Eff.await (sendMail transporter mailOptions) ;;
  sent_to <- Eff.pure (recipients_join recipients) ;;
  subject_text <- Eff.pure (ToString subject) ;;
  body_text <- Eff.pure (ToString body) ;;
  attachment_text <- Eff.pure (ToString (or_else attachment (Str "none"))) ;;
  let result :=
    "Email sent to " ++ sent_to ++ " with subject: " ++ subject_text
    ++ " and body: " ++ body_text
    ++ ". Attachment: " ++ attachment_text in
  Logger.info result Undefined ;;
  Eff.ret (Str result).

(** The [catch] block of [execute]; reading the message or converting it
    may throw in turn. *)
Definition fail (error : thrown) : Logger.M World value :=
  Logger.error "emailSender failed" error ;;
  message <- Eff.pure (message_of error) ;;
  text <- Eff.pure (ToString message) ;;
  Eff.throw (Error (prefix ++ text)).

(** [execute(args)] *)
Definition execute (args : value) : Logger.Async World :=
  Eff.async (Eff.tryCatch (send args) fail).

(** [new EmailSenderTool()] *)
Definition new : toolInstance World :=
  Instance (Method (Normal getDeclaration)) (Method execute).

End Execute.
End EmailSenderTool.

(** ** [js/tools/tool-manager.js] *)

Module ToolManager.
Import JS Tool.
Import ErrorBoundary.

(** The argument of [handleToolCall]. *)
Record functionCall : Type := mkCall {
  name : string;
  args : value;
  id : value
}.

Section Manager.
Context {World : Type}.

(** The manager ([this.tools]) and the services its tools talk to. *)
Record state : Type := mkState {
  tools : Map.t (toolInstance World);
  world : World
}.

Definition with_tools (m : Map.t (toolInstance World)) (st : state) : state :=
  mkState m (world st).

Definition with_world (w : World) (st : state) : state :=
  mkState (tools st) w.

(** [registerTool(name, toolInstance)] *)
Definition registerTool (name : string) (toolInstance : toolInstance World)
  : Logger.M state unit :=
  bound <- Eff.gets (fun st => Map.has name (tools st)) ;;
  if bound : bool then
    Eff.throw (ApplicationError ("Tool " ++ name ++ " is already registered")
                                INVALID_STATE)
  else
    Eff.modify (fun st => with_tools (Map.set name toolInstance (tools st)) st) ;;
    Logger.info ("Tool " ++ name ++ " registered successfully") Undefined.

(** The body of the callback of [getToolDeclarations]; its state is the
    local array [allDeclarations], and [push] appends to it. *)
Definition push (record : value) : Logger.M (list value) unit :=
  Eff.modify (fun allDeclarations => allDeclarations ++ [record])%list.

Definition declare (tool : toolInstance World) (name : string)
  : Logger.M (list value) unit :=
  getDeclaration <- Eff.pure (get_getDeclaration tool) ;;
  if member_truthy getDeclaration then
    if name =? "weather" then
      declaration <- Eff.pure (call_getDeclaration getDeclaration) ;;
      push (Obj [("functionDeclarations", declaration)])
    else
      declaration <- Eff.pure (call_getDeclaration getDeclaration) ;;
      push (Obj [(name, declaration)])
  else
    Eff.ret tt.

(** [getToolDeclarations()] *)
Definition getToolDeclarations : Logger.M state (list value) :=
  fun st =>
    match Map.forEach declare (tools st) [] with
    | (Normal _, allDeclarations, lines) => (Normal allDeclarations, st, lines)
    | (Throw e, _, lines) => (Throw e, st, lines)
    end.

(** [!tool] for the result of [this.tools.get(...)], [None] standing for the
    [undefined] of a key that is not in the map. *)
Definition not_tool (tool : option (toolInstance World)) : bool :=
  match tool with
  | None => true
  | Some t => negb (truthy t)
  end.

(** [tool.execute(args)] *)
Definition invoke (tool : toolInstance World) (args : value)
  : Logger.Async World :=
  match get_execute tool with
  | Normal m => call_execute m args
  | Throw e => fun w => (Rejected e, w, [])
  end.

(** [tool.execute(args)] for the result of [this.tools.get(...)], run from
    the manager. *)
Definition execute_tool (tool : option (toolInstance World)) (args : value)
  : Logger.Async state :=
  match tool with
  | Some t => Eff.zoom world with_world (invoke t args)
  | None =>
      fun st =>
        (Rejected (TypeError "Cannot read properties of undefined (reading 'execute')"),
         st, [])
  end.

(** [{ functionResponses: [{ response, id }] }] *)
Definition envelope (response id : value) : value :=
  Obj [("functionResponses", Arr [Obj [("response", response); ("id", id)]])].

(** [handleToolCall(functionCall)] *)
Definition handleToolCall (functionCall : functionCall) : Logger.Async state :=
  let name := name functionCall in
  let args := args functionCall in
  let id := id functionCall in
  Eff.async (
    Logger.info ("Handling tool call: " ++ name) (Obj [("args", args)]) ;;
    tool <- Eff.gets (fun st =>
              if name =? "get_weather_on_date"
              then Map.get "weather" (tools st)
              else Map.get name (tools st)) ;;
    if not_tool tool then
      Eff.throw (ApplicationError ("Unknown tool: " ++ name) INVALID_PARAMETER)
    else
      Eff.tryCatch
        (result <- Eff.await (execute_tool tool args) ;;
         Eff.ret (envelope (Obj [("output", result)]) id))
        (fun error =>
           Logger.error ("Tool execution failed: " ++ name) error ;;
           message <- Eff.pure (message_of error) ;;
           Eff.ret (envelope (Obj [("error", message)]) id))).

(** The instances that [registerDefaultTools] creates, [new GoogleSearchTool()]
    and so on.  Of their classes only [EmailSenderTool] is among the sources
    at hand; the others are left open. *)
Record defaultTools : Type := mkDefaultTools {
  GoogleSearchTool : toolInstance World;
  WeatherTool : toolInstance World;
  DocumentSaverTool : toolInstance World;
  EmailSenderTool : toolInstance World;
  CalculatorTool : toolInstance World;
  UnitConverterTool : toolInstance World;
  TimeConverterTool : toolInstance World;
  CurrencyConverterTool : toolInstance World;
  DateCalculatorTool : toolInstance World;
  TextSummarizerTool : toolInstance World;
  TextTranslatorTool : toolInstance World;
  RandomGeneratorTool : toolInstance World;
  PasswordGeneratorTool : toolInstance World;
  ListGeneratorTool : toolInstance World
}.

(** [registerDefaultTools()] *)
Definition registerDefaultTools (new : defaultTools) : Logger.M state unit :=
  registerTool "googleSearch" (GoogleSearchTool new) ;;
  registerTool "weather" (WeatherTool new) ;;
  registerTool "documentSaver" (DocumentSaverTool new) ;;
  registerTool "emailSender" (EmailSenderTool new) ;;
  registerTool "calculator" (CalculatorTool new) ;;
  registerTool "unitConverter" (UnitConverterTool new) ;;
  registerTool "timeConverter" (TimeConverterTool new) ;;
  registerTool "currencyConverter" (CurrencyConverterTool new) ;;
  registerTool "dateCalculator" (DateCalculatorTool new) ;;
  registerTool "textSummarizer" (TextSummarizerTool new) ;;
  registerTool "textTranslator" (TextTranslatorTool new) ;;
  registerTool "randomGenerator" (RandomGeneratorTool new) ;;
  registerTool "passwordGenerator" (PasswordGeneratorTool new) ;;
  registerTool "listGenerator" (ListGeneratorTool new).

(** [new ToolManager()] *)
Definition constructor (new : defaultTools) (w : World)
  : completion unit * state * list Logger.line :=
  registerDefaultTools new (mkState Map.empty w).

End Manager.
Arguments state World : clear implicits.
Arguments defaultTools World : clear implicits.
End ToolManager.

(** ** Vocabulary of the properties *)

Module Registry.
Import JS Tool ToolManager.

Section Vocabulary.
Context {World : Type}.

(** A sequence of [registerTool] calls, each run in turn on the state the
    previous one left, whether it returned or threw. *)
Fixpoint registrations (calls : list (string * toolInstance World))
  (st : state World) : state World :=
  match calls with
  | [] => st
  | (name, tool) :: rest => registrations rest (snd (fst (registerTool name tool st)))
  end.

(** The error of a second registration under [name]. *)
Definition DuplicateRegistration (name : string) : thrown :=
  ApplicationError ("Tool " ++ name ++ " is already registered")
                   ErrorBoundary.INVALID_STATE.

(** The error of a call whose name resolves to nothing. *)
Definition UnknownTool (name : string) : thrown :=
  ApplicationError ("Unknown tool: " ++ name) ErrorBoundary.INVALID_PARAMETER.

(** The registry key a call name stands for, and the tool bound to it:
    the lookup at the head of [handleToolCall]. *)
Definition resolve (name : string) (m : Map.t (toolInstance World))
  : option (toolInstance World) :=
  if name =? "get_weather_on_date" then Map.get "weather" m else Map.get name m.

(** [tool.getDeclaration] reads as a truthy value: the test of the callback
    of [getToolDeclarations] passes. *)
Definition has_getDeclaration (tool : toolInstance World) : bool :=
  match get_getDeclaration tool with
  | Normal g => member_truthy g
  | Throw _ => false
  end.

(** [tool.getDeclaration] reads, without an exception, as a falsy value;
    a member that is absent reads as [Undefined]. *)
Definition lacks_getDeclaration (tool : toolInstance World) : bool :=
  match get_getDeclaration tool with
  | Normal g => negb (member_truthy g)
  | Throw _ => false
  end.

(** [tool.getDeclaration()] *)
Definition declaration_of (tool : toolInstance World) : completion value :=
  match get_getDeclaration tool with
  | Normal g => call_getDeclaration g
  | Throw e => Throw e
  end.

(** The entries of the registry that have a [getDeclaration], in the order
    of the registry. *)
Definition declaring (m : Map.t (toolInstance World)) : Map.t (toolInstance World) :=
  filter (fun entry => has_getDeclaration (snd entry)) m.

(** A tool on which the callback of [getToolDeclarations] does not throw:
    its [getDeclaration] is either falsy or a function that returns. *)
Definition declares_safely (tool : toolInstance World) : Prop :=
  lacks_getDeclaration tool = true \/
  exists f declaration,
    get_getDeclaration tool = Normal (Method f) /\ f = Normal declaration.

(** [record] is the declaration record of the tool bound to [name]. *)
Definition record_of (entry : string * toolInstance World) (record : value) : Prop :=
  exists declaration,
    declaration_of (snd entry) = Normal declaration /\
    (fst entry = "weather" -> record = Obj [("functionDeclarations", declaration)]) /\
    (fst entry <> "weather" -> record = Obj [(fst entry, declaration)]).


(** The same registry with other [execute] members. *)
Definition same_declarations (t1 t2 : toolInstance World) : Prop :=
  get_getDeclaration t1 = get_getDeclaration t2.



End Vocabulary.
End Registry.

(** ** Sample tools and registries *)

Module Sample.
Import JS Tool ToolManager.

(** The world of the samples counts the calls made to outside services. *)
Definition World : Type := nat.

(** The tool of the first example scenario of the spec: it answers "4". *)
Definition calc : toolInstance World :=
  Instance
    (Method (Normal (Obj [("name", Str "calc")])))
    (Method (fun _ w => (Fulfilled (Str "4"), S w, []))).

Definition weather : toolInstance World :=
  Instance
    (Method (Normal (Obj [("name", Str "get_weather_on_date")])))
    (Method (fun args w => (Fulfilled (Obj [("forecast", Str "sunny"); ("for", args)]),
                            S w, []))).

(** An object with [execute] and no [getDeclaration]. *)
Definition undeclared : toolInstance World :=
  Instance absent (Method (fun _ w => (Fulfilled (Str "done"), S w, []))).

(** A tool whose [execute] rejects with [new Error("boom")]. *)
Definition failing : toolInstance World :=
  Instance
    (Method (Normal (Obj [("name", Str "failing")])))
    (Method (fun _ w => (Rejected (Error "boom"), w, []))).

(** An object with neither member. *)
Definition hollow : toolInstance World := Plain (Obj []).

Definition empty : state World := mkState Map.empty 0.

(** [registerTool('calc', calc); registerTool('weather', weather);
    registerTool('failing', failing)] on a registry with no tools. *)
Definition registry : state World :=
  Registry.registrations
    [("calc", calc); ("weather", weather); ("failing", failing)] empty.

(** The same, after [registerTool('undeclared', undeclared)]. *)
Definition registry_with_undeclared : state World :=
  Registry.registrations [("undeclared", undeclared)] registry.

(** [registry] with other [execute] members. *)
Definition registry_rewired : state World :=
  Registry.registrations
    [("calc", Instance (Method (Normal (Obj [("name", Str "calc")]))) absent);
     ("weather", Instance (Method (Normal (Obj [("name", Str "get_weather_on_date")])))
                          absent);
     ("failing", Instance (Method (Normal (Obj [("name", Str "failing")]))) absent)]
    empty.

(** A [nodemailer] whose transport refuses every mail. *)
Definition smtp_down : EmailSenderTool.Nodemailer World :=
  EmailSenderTool.mkNodemailer (fun _ =>
    Normal (EmailSenderTool.mkTransporter (fun _ w =>
      (Rejected (Error "SMTP down"), S w, [])))).

Definition process : EmailSenderTool.Process :=
  EmailSenderTool.mkProcess Undefined Undefined "sender@example.org" "secret".

Definition mail : value :=
  Obj [("recipients", Arr [Str "a@example.org"; Str "b@example.org"]);
       ("subject", Str "hello");
       ("body", Str "world")].

(** [registry] after [registerTool('hollow', hollow)]. *)
Definition registry_with_hollow : state World :=
  Registry.registrations [("hollow", hollow)] registry.

(** A registry with the e-mail tool under its name. *)
Definition mailer : state World :=
  Registry.registrations
    [("emailSender", EmailSenderTool.new smtp_down process)] empty.

End Sample.

(** ** Further vocabulary and samples *)

Module Cases.
Import JS Tool ToolManager Registry.

Section Vocabulary.
Context {World : Type}.

(** The key of [this.tools] that [handleToolCall] looks up for a call
    name. *)
Definition key_of (name : string) : string :=
  if name =? "get_weather_on_date" then "weather" else name.

(** The record that the callback of [getToolDeclarations] pushes for a tool
    bound to [name] whose [getDeclaration()] returned [declaration]. *)
Definition record_for (name : string) (declaration : value) : value :=
  if name =? "weather"
  then Obj [("functionDeclarations", declaration)]
  else Obj [(name, declaration)].

(** The callback of [getToolDeclarations] throws [e] on [tool]: reading
    [tool.getDeclaration] throws, or the member is truthy and calling it
    throws. *)
Definition declaration_throws (tool : toolInstance World) (e : thrown) : Prop :=
  get_getDeclaration tool = Throw e \/
  exists g, get_getDeclaration tool = Normal g /\
            member_truthy g = true /\
            call_getDeclaration g = Throw e.

(** Two instances that [handleToolCall] cannot tell apart: the same
    truthiness and the same [execute] member. *)
Definition same_execute (t1 t2 : toolInstance World) : Prop :=
  truthy t1 = truthy t2 /\ get_execute t1 = get_execute t2.

(** What [handleToolCall] settles with once [execute] has settled with
    [o]. *)
Definition settled (o : outcome) (id : value) : outcome :=
  match o with
  | Fulfilled result => Fulfilled (envelope (Obj [("output", result)]) id)
  | Rejected e =>
      match message_of e with
      | Normal message => Fulfilled (envelope (Obj [("error", message)]) id)
      | Throw e' => Rejected e'
      end
  end.

End Vocabulary.

(** The object literal that [execute] passes to [createTransport]. *)
Definition transportOptions (process : EmailSenderTool.Process) : value :=
  Obj [("service", Str "gmail");
       ("auth", Obj [
          ("user", or_else (EmailSenderTool.EMAIL_USER process)
                           (Str (EmailSenderTool.fallback_user process)));
          ("pass", or_else (EmailSenderTool.EMAIL_PASSWORD process)
                           (Str (EmailSenderTool.fallback_password process)))])].

(** The object literal [mailOptions] of [execute], [to] being
    [recipients.join(', ')]. *)
Definition mailOptions (process : EmailSenderTool.Process) (to : string)
  (subject body attachment : value) : value :=
  Obj [("from", or_else (EmailSenderTool.EMAIL_USER process)
                        (Str (EmailSenderTool.fallback_user process)));
       ("to", Str to);
       ("subject", subject);
       ("text", body);
       ("attachments",
        if ToBoolean attachment
        then Arr [Obj [("filename", Str "attachment"); ("path", attachment)]]
        else Arr [])].

(** The template literal [result] of [execute], once its substitutions
    are converted. *)
Definition report (to subject body attachment : string) : string :=
  "Email sent to " ++ to ++ " with subject: " ++ subject
  ++ " and body: " ++ body
  ++ ". Attachment: " ++ attachment.

Definition isArray (v : value) : bool :=
  match v with
  | Arr _ => true
  | _ => false
  end.

(** Samples. *)

(** A [nodemailer] whose transport accepts every mail. *)
Definition smtp_up : EmailSenderTool.Nodemailer Sample.World :=
  EmailSenderTool.mkNodemailer (fun _ =>
    Normal (EmailSenderTool.mkTransporter (fun _ w =>
      (Fulfilled (Obj [("response", Str "250 OK")]), S w, [])))).

(** A [nodemailer] that cannot make a transport. *)
Definition no_transport : EmailSenderTool.Nodemailer Sample.World :=
  EmailSenderTool.mkNodemailer (fun _ => Throw (Error "unsupported service")).

(** A tool whose [execute] does [throw undefined]. *)
Definition thrower : toolInstance Sample.World :=
  Instance
    (Method (Normal (Obj [("name", Str "thrower")])))
    (Method (fun _ w => (Rejected (Raised Undefined), S w, []))).

(** An object whose [getDeclaration] is the number 42. *)
Definition broken : toolInstance Sample.World :=
  Instance (Data (Num 42)) (Method (fun _ w => (Fulfilled (Str "ok"), w, []))).

(** Default tools: the e-mail tool and placeholders for the others. *)
Definition defaults : defaultTools Sample.World :=
  mkDefaultTools
    Sample.calc Sample.weather Sample.calc
    (EmailSenderTool.new smtp_up Sample.process)
    Sample.calc Sample.calc Sample.calc Sample.calc Sample.calc
    Sample.calc Sample.calc Sample.calc Sample.calc Sample.calc.


(** [registry] after [registerTool('zero', 0)]. *)
Definition registry_with_zero : state Sample.World :=
  registrations [("zero", Plain (Num 0))] Sample.registry.

Definition registry_with_thrower : state Sample.World :=
  registrations [("thrower", thrower)] Sample.registry.

Definition registry_with_broken : state Sample.World :=
  registrations [("broken", broken)] Sample.registry.




(** An object that cannot be converted to a string: its own [toString] is
    the number 1. *)
Definition unprintable : value := Obj [("toString", Num 1)].

(** [registry] with other [getDeclaration] members. *)
Definition registry_undeclared : state Sample.World :=
  mkState
    [("calc", Instance absent
                (Method (fun _ w => (Fulfilled (Str "4"), S w, []))));
     ("weather", Instance absent
                (Method (fun args w =>
                   (Fulfilled (Obj [("forecast", Str "sunny"); ("for", args)]),
                    S w, []))));
     ("failing", Instance absent
                (Method (fun _ w => (Rejected (Error "boom"), w, []))))]
    0.

End Cases.

(** ** Laws of the computations *)

Module EffFacts.
Import JS.

Section Laws.
Context {L S : Type}.

Lemma bind_ret_l {A B} (a : A) (k : A -> Eff.M L S B) s :
  Eff.bind (Eff.ret a) k s = k a s.
Proof.
  unfold Eff.bind, Eff.ret. now destruct (k a s) as [[r s2] l2].
Qed.

Lemma bind_ret_r {A} (c : Eff.M L S A) s :
  Eff.bind c Eff.ret s = c s.
Proof.
  unfold Eff.bind, Eff.ret.
  destruct (c s) as [[[a|e] s1] l1]; [|reflexivity].
  now rewrite app_nil_r.
Qed.

Lemma bind_assoc {A B C} (c : Eff.M L S A) (k : A -> Eff.M L S B)
  (h : B -> Eff.M L S C) s :
  Eff.bind (Eff.bind c k) h s = Eff.bind c (fun a => Eff.bind (k a) h) s.
Proof.
  unfold Eff.bind.
  destruct (c s) as [[[a|e] s1] l1]; [|reflexivity].
  destruct (k a s1) as [[[b|e] s2] l2]; [|reflexivity].
  destruct (h b s2) as [[r s3] l3]. now rewrite app_assoc.
Qed.

Lemma bind_throw {A B} (e : thrown) (k : A -> Eff.M L S B) s :
  Eff.bind (Eff.throw e) k s = Eff.throw e s.
Proof. reflexivity. Qed.

Lemma tryCatch_ret {A} (a : A) (handler : thrown -> Eff.M L S A) s :
  Eff.tryCatch (Eff.ret a) handler s = Eff.ret a s.
Proof. reflexivity. Qed.

Lemma tryCatch_throw {A} (e : thrown) (handler : thrown -> Eff.M L S A) s :
  Eff.tryCatch (Eff.throw e) handler s = handler e s.
Proof.
  unfold Eff.tryCatch, Eff.throw. now destruct (handler e s) as [[r s2] l2].
Qed.

(** [await] undoes [async]: awaiting an [async] function runs its body. *)
Lemma await_async (body : Eff.M L S value) s :
  Eff.await (Eff.async body) s = body s.
Proof.
  unfold Eff.await, Eff.async. now destruct (body s) as [[[v|e] s1] l1].
Qed.

End Laws.
End EffFacts.

(** ** Facts about the [Map] *)

Module MapFacts.

Section Facts.
Context {V : Type}.
Implicit Types (m : Map.t V) (k : string) (v : V).

Lemma has_get k m : Map.has k m = true <-> exists v, Map.get k m = Some v.
Proof.
  unfold Map.has. destruct (Map.get k m) as [v|]; split.
  - intros _. now exists v.
  - reflexivity.
  - discriminate.
  - intros [v H]. discriminate.
Qed.

Lemma has_false_get k m : Map.has k m = false <-> Map.get k m = None.
Proof.
  unfold Map.has. destruct (Map.get k m); split; congruence.
Qed.

Lemma get_set_same k v m : Map.get k (Map.set k v m) = Some v.
Proof.
  induction m as [|[k0 v0] rest IH]; simpl.
  - now rewrite String.eqb_refl.
  - destruct (k0 =? k) eqn:E; simpl; rewrite E; auto.
Qed.

Lemma get_set_other k k' v m :
  k <> k' -> Map.get k' (Map.set k v m) = Map.get k' m.
Proof.
  intros Hne. induction m as [|[k0 v0] rest IH]; simpl.
  - apply String.eqb_neq in Hne. now rewrite Hne.
  - destruct (k0 =? k) eqn:E; simpl.
    + apply String.eqb_eq in E. subst k0.
      apply String.eqb_neq in Hne. now rewrite Hne.
    + now rewrite IH.
Qed.

(** A key that is not in the map goes to its end. *)
Lemma set_fresh k v m :
  Map.has k m = false -> Map.set k v m = (m ++ [(k, v)])%list.
Proof.
  rewrite has_false_get.
  induction m as [|[k0 v0] rest IH]; simpl; intros H.
  - reflexivity.
  - destruct (k0 =? k); [discriminate|]. now rewrite IH.
Qed.

Lemma get_In k v m : Map.get k m = Some v -> In (k, v) m.
Proof.
  induction m as [|[k0 v0] rest IH]; simpl; [discriminate|].
  destruct (k0 =? k) eqn:E.
  - apply String.eqb_eq in E. intros [= ->]. subst. now left.
  - intros H. right. auto.
Qed.

Lemma get_None_keys k m : Map.get k m = None <-> ~ In k (Map.keys m).
Proof.
  induction m as [|[k0 v0] rest IH]; simpl.
  - tauto.
  - destruct (k0 =? k) eqn:E.
    + apply String.eqb_eq in E. split; [discriminate | intros H; exfalso; auto].
    + apply String.eqb_neq in E. rewrite IH. tauto.
Qed.

End Facts.
End MapFacts.

(** ** Registration *)

Module Registration.
Import JS Tool ToolManager ErrorBoundary Registry.

Section Proofs.
Context {World : Type}.
Implicit Types (st : state World) (tool : toolInstance World) (name : string).

Lemma registerTool_bound name tool st :
  Map.has name (tools st) = true ->
  registerTool name tool st = (Throw (DuplicateRegistration name), st, []).
Proof.
  intros H. unfold registerTool, Eff.bind, Eff.gets. rewrite H. reflexivity.
Qed.

Lemma registerTool_fresh name tool st :
  Map.has name (tools st) = false ->
  registerTool name tool st =
  (Normal tt,
   mkState (tools st ++ [(name, tool)])%list (world st),
   [Logger.Info ("Tool " ++ name ++ " registered successfully") Undefined]).
Proof.
  intros H. unfold registerTool, Eff.bind, Eff.gets. rewrite H.
  unfold Eff.modify, Logger.info, Eff.tell, with_tools. simpl.
  now rewrite (MapFacts.set_fresh _ _ _ H).
Qed.

(** A registration never removes or replaces a binding. *)
Lemma registerTool_keeps name tool st k v :
  Map.get k (tools st) = Some v ->
  Map.get k (tools (snd (fst (registerTool name tool st)))) = Some v.
Proof.
  intros Hk. destruct (Map.has name (tools st)) eqn:H.
  - now rewrite (registerTool_bound _ _ _ H).
  - rewrite (registerTool_fresh _ _ _ H). simpl.
    rewrite <- (MapFacts.set_fresh name tool _ H).
    rewrite MapFacts.get_set_other; [exact Hk|].
    intros ->. apply MapFacts.has_false_get in H. congruence.
Qed.

Lemma registrations_keep calls : forall st k v,
  Map.get k (tools st) = Some v ->
  Map.get k (tools (registrations calls st)) = Some v.
Proof.
  induction calls as [|[name tool] rest IH]; intros st k v Hk; simpl.
  - exact Hk.
  - apply IH. now apply registerTool_keeps.
Qed.

(** Registration leaves the outside world alone. *)
Lemma registerTool_world name tool st :
  world (snd (fst (registerTool name tool st))) = world st.
Proof.
  destruct (Map.has name (tools st)) eqn:H.
  - now rewrite (registerTool_bound _ _ _ H).
  - now rewrite (registerTool_fresh _ _ _ H).
Qed.

(** The keys of a registry are distinct, whatever was registered. *)
Lemma registerTool_NoDup name tool st :
  NoDup (Map.keys (tools st)) ->
  NoDup (Map.keys (tools (snd (fst (registerTool name tool st))))).
Proof.
  intros ND. destruct (Map.has name (tools st)) eqn:H.
  - now rewrite (registerTool_bound _ _ _ H).
  - rewrite (registerTool_fresh _ _ _ H). simpl.
    unfold Map.keys. rewrite map_app. simpl.
    apply NoDup_app; [exact ND | repeat constructor; simpl; tauto |].
    intros k Hin [<-|[]].
    apply MapFacts.has_false_get, MapFacts.get_None_keys in H. contradiction.
Qed.

Lemma registrations_NoDup calls : forall st,
  NoDup (Map.keys (tools st)) ->
  NoDup (Map.keys (tools (registrations calls st))).
Proof.
  induction calls as [|[name tool] rest IH]; intros st ND; simpl.
  - exact ND.
  - apply IH. now apply registerTool_NoDup.
Qed.

(** [new ToolManager()] registers the fourteen default tools, in the order
    of [registerDefaultTools], whatever they are. *)
Lemma constructor_registry (new : defaultTools World) (w : World) :
  fst (fst (constructor new w)) = Normal tt /\
  Map.keys (tools (snd (fst (constructor new w)))) =
    ["googleSearch"; "weather"; "documentSaver"; "emailSender"; "calculator";
     "unitConverter"; "timeConverter"; "currencyConverter"; "dateCalculator";
     "textSummarizer"; "textTranslator"; "randomGenerator"; "passwordGenerator";
     "listGenerator"] /\
  Map.get "weather" (tools (snd (fst (constructor new w)))) = Some (WeatherTool new) /\
  Map.get "emailSender" (tools (snd (fst (constructor new w))))
  = Some (EmailSenderTool new) /\
  world (snd (fst (constructor new w))) = w.
Proof. repeat split. Qed.

(** C3. Whatever is registered in between, a second [registerTool] under a
    name that was bound by a first one throws the [ApplicationError]
    "Tool <name> is already registered" with code [INVALID_STATE], emits
    nothing, leaves the state as it was before the call, and the name is
    still bound to the first tool. *)
Theorem registerTool_duplicate name first second calls st :
  fst (fst (registerTool name first st)) = Normal tt ->
  let bound := registrations calls (snd (fst (registerTool name first st))) in
  registerTool name second bound =
    (Throw (ApplicationError ("Tool " ++ name ++ " is already registered")
                             INVALID_STATE),
     bound, []) /\
  Map.get name (tools bound) = Some first /\
  Map.get name (tools (snd (fst (registerTool name second bound)))) = Some first.
Proof.
  intros Hfirst bound.
  assert (Hget : Map.get name (tools bound) = Some first).
  { apply registrations_keep.
    destruct (Map.has name (tools st)) eqn:H.
    - rewrite (registerTool_bound _ _ _ H) in Hfirst. discriminate.
    - rewrite (registerTool_fresh _ _ _ H). simpl.
      rewrite <- (MapFacts.set_fresh name first _ H).
      apply MapFacts.get_set_same. }
  assert (Hhas : Map.has name (tools bound) = true).
  { apply MapFacts.has_get. eauto. }
  rewrite (registerTool_bound _ second _ Hhas). auto.
Qed.

(** C9. [registerTool] looks at nothing but the name: under a name that is
    not bound, any instance whatsoever is accepted, appended to the
    registry and bound to the name; the bindings already there stay. *)
Theorem registerTool_no_validation name tool st :
  Map.has name (tools st) = false ->
  registerTool name tool st =
    (Normal tt,
     mkState (tools st ++ [(name, tool)])%list (world st),
     [Logger.Info ("Tool " ++ name ++ " registered successfully") Undefined]) /\
  Map.get name (tools (snd (fst (registerTool name tool st)))) = Some tool /\
  forall k v, Map.get k (tools st) = Some v ->
              Map.get k (tools (snd (fst (registerTool name tool st)))) = Some v.
Proof.
  intros H. split; [now apply registerTool_fresh|]. split.
  - rewrite (registerTool_fresh _ _ _ H). simpl.
    rewrite <- (MapFacts.set_fresh name tool _ H).
    apply MapFacts.get_set_same.
  - intros k v. apply registerTool_keeps.
Qed.

End Proofs.

Lemma registerTool_duplicate_witness :
  fst (fst (registerTool "calc" Sample.calc Sample.empty)) = Normal tt /\
  let bound :=
    registrations [("weather", Sample.weather)]
      (snd (fst (registerTool "calc" Sample.calc Sample.empty))) in
  registerTool "calc" Sample.failing bound =
    (Throw (ApplicationError "Tool calc is already registered" INVALID_STATE),
     bound, []) /\
  Map.get "calc" (tools bound) = Some Sample.calc /\
  Map.get "calc" (tools (snd (fst (registerTool "calc" Sample.failing bound))))
  = Some Sample.calc.
Proof.
  split; [reflexivity|].
  apply (registerTool_duplicate "calc" Sample.calc Sample.failing
           [("weather", Sample.weather)] Sample.empty).
  reflexivity.
Defined.

Lemma registerTool_no_validation_witness :
  Map.has "hollow" (tools Sample.registry) = false /\
  registerTool "hollow" Sample.hollow Sample.registry =
    (Normal tt,
     mkState (tools Sample.registry ++ [("hollow", Sample.hollow)])%list
             (world Sample.registry),
     [Logger.Info "Tool hollow registered successfully" Undefined]) /\
  Map.get "hollow"
    (tools (snd (fst (registerTool "hollow" Sample.hollow Sample.registry))))
  = Some Sample.hollow /\
  forall k v, Map.get k (tools Sample.registry) = Some v ->
    Map.get k (tools (snd (fst (registerTool "hollow" Sample.hollow Sample.registry))))
    = Some v.
Proof.
  split; [reflexivity|].
  apply (registerTool_no_validation "hollow" Sample.hollow Sample.registry).
  reflexivity.
Defined.

End Registration.

(** ** Declarations *)

Module Declarations.
Import JS Tool ToolManager Registry.

Section Proofs.
Context {World : Type}.
Implicit Types (st : state World) (tool : toolInstance World) (name : string)
  (m : Map.t (toolInstance World)) (acc out : list value).

(** One turn of the callback, case by case. *)
Lemma declare_step tool name acc :
  declare tool name acc =
  match get_getDeclaration tool with
  | Throw e => (Throw e, acc, [])
  | Normal g =>
      if member_truthy g then
        match call_getDeclaration g with
        | Normal d =>
            (Normal tt,
             (acc ++ [if name =? "weather"
                      then Obj [("functionDeclarations", d)]
                      else Obj [(name, d)]])%list,
             [])
        | Throw e => (Throw e, acc, [])
        end
      else (Normal tt, acc, [])
  end.
Proof.
  unfold declare, Eff.bind, Eff.pure.
  destruct (get_getDeclaration tool) as [g|e]; [|reflexivity].
  destruct (member_truthy g); [|reflexivity].
  destruct (name =? "weather"); unfold Eff.bind;
    destruct (call_getDeclaration g); reflexivity.
Qed.

Lemma declare_lacking tool name acc :
  lacks_getDeclaration tool = true ->
  declare tool name acc = (Normal tt, acc, []).
Proof.
  unfold lacks_getDeclaration. rewrite declare_step.
  destruct (get_getDeclaration tool) as [g|e]; [|discriminate].
  destruct (member_truthy g); [discriminate | reflexivity].
Qed.

Lemma lacking_not_declaring tool :
  lacks_getDeclaration tool = true -> has_getDeclaration tool = false.
Proof.
  unfold lacks_getDeclaration, has_getDeclaration.
  destruct (get_getDeclaration tool) as [g|e]; [|reflexivity].
  now destruct (member_truthy g).
Qed.

Lemma forEach_cons tool name m acc :
  Map.forEach declare ((name, tool) :: m) acc =
  match declare tool name acc with
  | (Normal _, acc1, l1) =>
      let '(r, acc2, l2) := Map.forEach declare m acc1 in (r, acc2, (l1 ++ l2)%list)
  | (Throw e, acc1, l1) => (Throw e, acc1, l1)
  end.
Proof. reflexivity. Qed.

(** The loop emits nothing. *)
Lemma forEach_declare_silent m : forall acc,
  snd (Map.forEach declare m acc) = [].
Proof.
  induction m as [|[name tool] rest IH]; intros acc; [reflexivity|].
  rewrite forEach_cons, declare_step.
  destruct (get_getDeclaration tool) as [g|e]; [|reflexivity].
  destruct (member_truthy g).
  - destruct (call_getDeclaration g) as [d|e]; [|reflexivity].
    specialize (IH (acc ++ [if name =? "weather"
                            then Obj [("functionDeclarations", d)]
                            else Obj [(name, d)]])%list).
    destruct (Map.forEach declare rest _) as [[r acc2] l2]. exact IH.
  - specialize (IH acc).
    destruct (Map.forEach declare rest acc) as [[r acc2] l2]. exact IH.
Qed.

(** When the loop completes, it has pushed one record for each entry that
    has a [getDeclaration], in the order of the entries. *)
Lemma forEach_declare_records m : forall acc r acc' lines,
  Map.forEach declare m acc = (Normal r, acc', lines) ->
  exists out, acc' = (acc ++ out)%list /\ Forall2 record_of (declaring m) out.
Proof.
  induction m as [|[name tool] rest IH]; intros acc r acc' lines.
  - simpl. unfold Eff.ret. intros [= <- <- <-]. exists []. split.
    + now rewrite app_nil_r.
    + constructor.
  - rewrite forEach_cons, declare_step. unfold declaring. simpl.
    unfold has_getDeclaration at 1.
    destruct (get_getDeclaration tool) as [g|e] eqn:Eg; [|discriminate].
    destruct (member_truthy g) eqn:Et.
    + destruct (call_getDeclaration g) as [d|e] eqn:Ec; [|discriminate].
      destruct (Map.forEach declare rest _) as [[r2 acc2] l2] eqn:Er.
      intros [= -> -> <-].
      destruct (IH _ _ _ _ Er) as (out & -> & HF).
      eexists (_ :: out). split.
      * now rewrite <- app_assoc.
      * constructor; [|exact HF].
        exists d. unfold declaration_of. simpl. rewrite Eg. split; [exact Ec|].
        split.
        -- intros ->. reflexivity.
        -- intros Hne. apply String.eqb_neq in Hne. now rewrite Hne.
    + destruct (Map.forEach declare rest acc) as [[r2 acc2] l2] eqn:Er.
      intros [= -> -> <-]. exact (IH _ _ _ _ Er).
Qed.

(** The loop completes on tools whose [getDeclaration] is absent or a
    function that returns. *)
Lemma forEach_declare_returns m : forall acc,
  Forall (fun entry => declares_safely (snd entry)) m ->
  exists acc', Map.forEach declare m acc = (Normal tt, acc', []).
Proof.
  induction m as [|[name tool] rest IH]; intros acc Hsafe.
  - exists acc. reflexivity.
  - inversion Hsafe as [|? ? Htool Hrest]; subst. simpl in Htool.
    rewrite forEach_cons.
    destruct Htool as [Hlack | (f & d & Hg & Hf)].
    + rewrite (declare_lacking _ _ _ Hlack).
      destruct (IH acc Hrest) as [acc' ->]. now exists acc'.
    + rewrite declare_step, Hg. simpl. rewrite Hf.
      destruct (IH (acc ++ [if name =? "weather"
                            then Obj [("functionDeclarations", d)]
                            else Obj [(name, d)]])%list Hrest) as [acc' ->].
      now exists acc'.
Qed.

(** An entry without [getDeclaration] can be taken out of the loop. *)
Lemma forEach_declare_skip before name tool after : forall acc,
  lacks_getDeclaration tool = true ->
  Map.forEach declare (before ++ (name, tool) :: after)%list acc =
  Map.forEach declare (before ++ after)%list acc.
Proof.
  induction before as [|[k v] rest IH]; intros acc Hlack.
  - simpl app. rewrite forEach_cons, (declare_lacking _ _ _ Hlack).
    now destruct (Map.forEach declare after acc) as [[r acc2] l2].
  - simpl app. rewrite !forEach_cons.
    destruct (declare v k acc) as [[[u|e] acc1] l1]; [|reflexivity].
    now rewrite IH.
Qed.

(** The loop reads [getDeclaration] and nothing else of a tool. *)
Lemma forEach_declare_ext m m' : forall acc,
  Forall2 (fun e e' => fst e = fst e' /\ same_declarations (snd e) (snd e')) m m' ->
  Map.forEach declare m acc = Map.forEach declare m' acc.
Proof.
  intros acc H. revert acc.
  induction H as [|[k v] [k' v'] rest rest' [Hk Hv] Hrest IH]; intros acc.
  - reflexivity.
  - simpl in Hk, Hv. subst k'. rewrite !forEach_cons, !declare_step.
    unfold same_declarations in Hv. rewrite Hv.
    destruct (get_getDeclaration v') as [g|e]; [|reflexivity].
    destruct (member_truthy g); [|now rewrite IH].
    destruct (call_getDeclaration g); [|reflexivity].
    now rewrite IH.
Qed.

Lemma getToolDeclarations_state st :
  snd (fst (getToolDeclarations st)) = st /\ snd (getToolDeclarations st) = [].
Proof.
  unfold getToolDeclarations.
  pose proof (forEach_declare_silent (tools st) []) as Hs.
  destruct (Map.forEach declare (tools st) []) as [[[u|e] acc] l]; simpl in *; auto.
Qed.

Lemma getToolDeclarations_records st out st' lines :
  getToolDeclarations st = (Normal out, st', lines) ->
  Forall2 record_of (declaring (tools st)) out.
Proof.
  unfold getToolDeclarations.
  destruct (Map.forEach declare (tools st) []) as [[[u|e] acc] l] eqn:E;
    [|discriminate].
  intros [= -> <- <-].
  destruct (forEach_declare_records _ _ _ _ _ E) as (out' & -> & HF). exact HF.
Qed.

(** C4. In what [getToolDeclarations] returns, the record of a tool bound
    to "weather" is [{functionDeclarations: declaration}] and the record of
    a tool bound to any other name is [{[name]: declaration}], where
    [declaration] is what the tool's [getDeclaration()] returns. *)
Theorem declaration_record_shape st out st' lines :
  getToolDeclarations st = (Normal out, st', lines) ->
  Forall2
    (fun entry record =>
       exists declaration,
         declaration_of (snd entry) = Normal declaration /\
         (fst entry = "weather" ->
          record = Obj [("functionDeclarations", declaration)]) /\
         (fst entry <> "weather" ->
          record = Obj [(fst entry, declaration)]))
    (declaring (tools st)) out.
Proof.
  intros H. exact (getToolDeclarations_records _ _ _ _ H).
Qed.

(** C6, amended. On a registry whose tools each have a [getDeclaration]
    that is absent (falsy) or a function that returns, [getToolDeclarations]
    returns, and returns exactly one record for each registered tool that
    has a [getDeclaration], in registration order; a registry whose tools
    all have one gets exactly one record per registered tool. *)
Theorem declarations_one_per_declaring_tool st :
  Forall (fun entry => declares_safely (snd entry)) (tools st) ->
  exists out,
    getToolDeclarations st = (Normal out, st, []) /\
    Forall2 record_of (declaring (tools st)) out /\
    length out = length (declaring (tools st)) /\
    (Forall (fun entry => has_getDeclaration (snd entry) = true) (tools st) ->
     Forall2 record_of (tools st) out /\ length out = Map.size (tools st)).
Proof.
  intros Hsafe.
  destruct (forEach_declare_returns (tools st) [] Hsafe) as [acc Hrun].
  assert (Hget : getToolDeclarations st = (Normal acc, st, [])).
  { unfold getToolDeclarations. now rewrite Hrun. }
  exists acc. split; [exact Hget|].
  pose proof (getToolDeclarations_records _ _ _ _ Hget) as HF.
  split; [exact HF|]. split; [symmetry; exact (Forall2_length HF)|].
  intros Hall.
  assert (Hid : declaring (tools st) = tools st).
  { unfold declaring. clear -Hall.
    induction Hall as [|e rest He Hrest IH]; simpl; [reflexivity|].
    now rewrite He, IH. }
  rewrite Hid in HF. split; [exact HF|].
  symmetry. exact (Forall2_length HF).
Qed.

(** C7. [getToolDeclarations] leaves the registry and the world as they
    are and logs nothing; a second call returns what the first returned;
    and the result is the same on a registry that has the same names and
    [getDeclaration] members and any other [execute] members, so no
    [execute] takes part in it. *)
Theorem getToolDeclarations_read_only st :
  snd (fst (getToolDeclarations st)) = st /\
  snd (getToolDeclarations st) = [] /\
  getToolDeclarations (snd (fst (getToolDeclarations st))) = getToolDeclarations st /\
  forall st',
    Forall2 (fun e e' => fst e = fst e' /\ same_declarations (snd e) (snd e'))
            (tools st) (tools st') ->
    fst (fst (getToolDeclarations st')) = fst (fst (getToolDeclarations st)).
Proof.
  destruct (getToolDeclarations_state st) as [Hst Hlog].
  repeat split; try assumption.
  - now rewrite Hst.
  - intros st' Hsame. unfold getToolDeclarations.
    rewrite <- (forEach_declare_ext _ _ [] Hsame).
    now destruct (Map.forEach declare (tools st) []) as [[[u|e] acc] l].
Qed.

(** C8. A registered tool whose [getDeclaration] is absent (reads as a
    falsy value) adds no record and no error: [getToolDeclarations]
    completes as it does on the registry without that tool, and what it
    returns has fewer records than the registry has tools. *)
Theorem getToolDeclarations_skips before name tool after w :
  lacks_getDeclaration tool = true ->
  fst (fst (getToolDeclarations (mkState (before ++ (name, tool) :: after)%list w))) =
  fst (fst (getToolDeclarations (mkState (before ++ after)%list w))) /\
  forall out,
    fst (fst (getToolDeclarations (mkState (before ++ (name, tool) :: after)%list w)))
    = Normal out ->
    length out < Map.size (before ++ (name, tool) :: after)%list.
Proof.
  intros Hlack. split.
  - unfold getToolDeclarations. simpl tools.
    rewrite (forEach_declare_skip _ _ _ _ [] Hlack).
    now destruct (Map.forEach declare (before ++ after)%list [])
      as [[[u|e] acc] l].
  - intros out Hout.
    destruct (getToolDeclarations (mkState (before ++ (name, tool) :: after)%list w))
      as [[r st'] lines] eqn:E.
    simpl in Hout. subst r.
    apply getToolDeclarations_records, Forall2_length in E. rewrite <- E.
    simpl tools. unfold declaring, Map.size.
    rewrite filter_app, !length_app. simpl.
    rewrite (lacking_not_declaring _ Hlack).
    pose proof (filter_length_le (fun entry => has_getDeclaration (snd entry)) before).
    pose proof (filter_length_le (fun entry => has_getDeclaration (snd entry)) after).
    lia.
Qed.

End Proofs.

Lemma declaration_record_shape_witness :
  getToolDeclarations Sample.registry =
    (Normal [Obj [("calc", Obj [("name", Str "calc")])];
             Obj [("functionDeclarations", Obj [("name", Str "get_weather_on_date")])];
             Obj [("failing", Obj [("name", Str "failing")])]],
     Sample.registry, []) /\
  Forall2
    (fun entry record =>
       exists declaration,
         declaration_of (snd entry) = Normal declaration /\
         (fst entry = "weather" ->
          record = Obj [("functionDeclarations", declaration)]) /\
         (fst entry <> "weather" ->
          record = Obj [(fst entry, declaration)]))
    (declaring (tools Sample.registry))
    [Obj [("calc", Obj [("name", Str "calc")])];
     Obj [("functionDeclarations", Obj [("name", Str "get_weather_on_date")])];
     Obj [("failing", Obj [("name", Str "failing")])]].
Proof.
  split; [reflexivity|].
  apply (declaration_record_shape Sample.registry _ Sample.registry []).
  reflexivity.
Defined.

Lemma sample_declares_safely :
  Forall (fun entry => declares_safely (snd entry))
         (tools Sample.registry_with_undeclared).
Proof.
  change (tools Sample.registry_with_undeclared)
    with [("calc", Sample.calc); ("weather", Sample.weather);
          ("failing", Sample.failing); ("undeclared", Sample.undeclared)].
  repeat (apply Forall_cons;
          [first [ left; reflexivity
                 | right; eexists _, _; split; reflexivity ]|]).
  apply Forall_nil.
Defined.

Lemma declarations_one_per_declaring_tool_witness :
  Forall (fun entry => declares_safely (snd entry))
         (tools Sample.registry_with_undeclared) /\
  exists out,
    getToolDeclarations Sample.registry_with_undeclared
    = (Normal out, Sample.registry_with_undeclared, []) /\
    Forall2 record_of (declaring (tools Sample.registry_with_undeclared)) out /\
    length out = length (declaring (tools Sample.registry_with_undeclared)) /\
    (Forall (fun entry => has_getDeclaration (snd entry) = true)
            (tools Sample.registry_with_undeclared) ->
     Forall2 record_of (tools Sample.registry_with_undeclared) out /\
     length out = Map.size (tools Sample.registry_with_undeclared)).
Proof.
  split; [exact sample_declares_safely|].
  apply (declarations_one_per_declaring_tool Sample.registry_with_undeclared).
  exact sample_declares_safely.
Defined.

(** The registry built by four [registerTool] calls, the last of which
    registers an object without [getDeclaration], has four tools and three
    declaration records. *)
Lemma declarations_counterexample :
  Map.keys (tools Sample.registry_with_undeclared)
  = ["calc"; "weather"; "failing"; "undeclared"] /\
  ~ (exists out,
       fst (fst (getToolDeclarations Sample.registry_with_undeclared)) = Normal out /\
       length out = Map.size (tools Sample.registry_with_undeclared)).
Proof.
  split; [reflexivity|].
  intros (out & Hout & Hlen). vm_compute in Hout.
  injection Hout as <-. discriminate Hlen.
Qed.

Lemma getToolDeclarations_read_only_witness :
  snd (fst (getToolDeclarations Sample.registry)) = Sample.registry /\
  snd (getToolDeclarations Sample.registry) = [] /\
  getToolDeclarations (snd (fst (getToolDeclarations Sample.registry)))
  = getToolDeclarations Sample.registry /\
  fst (fst (getToolDeclarations Sample.registry_rewired))
  = fst (fst (getToolDeclarations Sample.registry)).
Proof.
  destruct (getToolDeclarations_read_only Sample.registry) as (H1 & H2 & H3 & H4).
  split; [exact H1|]. split; [exact H2|]. split; [exact H3|].
  apply H4.
  repeat (apply Forall2_cons; [split; reflexivity|]).
  apply Forall2_nil.
Defined.

Lemma getToolDeclarations_skips_witness :
  lacks_getDeclaration Sample.undeclared = true /\
  fst (fst (getToolDeclarations
              (mkState ([("calc", Sample.calc)] ++
                        ("undeclared", Sample.undeclared) ::
                        [("weather", Sample.weather)])%list 0))) =
  fst (fst (getToolDeclarations
              (mkState ([("calc", Sample.calc)] ++ [("weather", Sample.weather)])%list
                       0))) /\
  forall out,
    fst (fst (getToolDeclarations
                (mkState ([("calc", Sample.calc)] ++
                          ("undeclared", Sample.undeclared) ::
                          [("weather", Sample.weather)])%list 0)))
    = Normal out ->
    length out < Map.size ([("calc", Sample.calc)] ++
                           ("undeclared", Sample.undeclared) ::
                           [("weather", Sample.weather)])%list.
Proof.
  split; [reflexivity|].
  apply (getToolDeclarations_skips [("calc", Sample.calc)] "undeclared"
           Sample.undeclared [("weather", Sample.weather)] 0).
  reflexivity.
Defined.

End Declarations.

(** ** Dispatch *)

Module Dispatch.
Import JS Tool ToolManager ErrorBoundary Registry.

Section Proofs.
Context {World : Type}.
Implicit Types (st : state World) (tool : toolInstance World)
  (call : functionCall).

(** The line logged at the head of [handleToolCall]. *)
Local Abbreviation handling call :=
  (Logger.Info ("Handling tool call: " ++ name call) (Obj [("args", args call)])).


(** No tool: the call is refused before anything runs. *)
Lemma handleToolCall_unknown call st :
  not_tool (resolve (name call) (tools st)) = true ->
  handleToolCall call st = (Rejected (UnknownTool (name call)), st, [handling call]).
Proof.
  intros H. unfold handleToolCall, Eff.async, Eff.bind, Logger.info, Eff.tell, Eff.gets.
  unfold resolve in H. rewrite H. reflexivity.
Qed.

(** A tool: the call runs [execute] and wraps what comes of it. *)
Lemma handleToolCall_known call st tool :
  resolve (name call) (tools st) = Some tool ->
  truthy tool = true ->
  handleToolCall call st =
  match invoke tool (args call) (world st) with
  | (Fulfilled result, w, lines) =>
      (Fulfilled (envelope (Obj [("output", result)]) (id call)),
       with_world w st, handling call :: lines)
  | (Rejected e, w, lines) =>
      let failed := Logger.Error ("Tool execution failed: " ++ name call) e in
      match message_of e with
      | Normal message =>
          (Fulfilled (envelope (Obj [("error", message)]) (id call)),
           with_world w st, handling call :: lines ++ [failed])%list
      | Throw e' =>
          (Rejected e', with_world w st, handling call :: lines ++ [failed])%list
      end
  end.
Proof.
  intros Hres Htruthy.
  unfold handleToolCall, Eff.async, Eff.bind, Logger.info, Eff.tell, Eff.gets.
  unfold resolve in Hres. rewrite Hres.
  unfold not_tool. rewrite Htruthy. change (negb true) with false.
  unfold Eff.tryCatch, Eff.bind, Eff.await, execute_tool, Eff.zoom.
  cbv beta iota zeta.
  destruct (invoke tool (args call) (world st)) as [[[result|e] w] lines].
  - unfold Eff.ret. cbv beta iota zeta. now rewrite app_nil_r.
  - unfold Logger.error, Eff.tell, Eff.pure, Eff.ret. cbv beta iota zeta.
    destruct (message_of e); cbv beta iota zeta; now rewrite ?app_nil_r.
Qed.


(** C2, amended. A call whose name is neither bound in the registry nor
    the alias "get_weather_on_date" makes [handleToolCall] reject with the
    [ApplicationError] "Unknown tool: <name>" of code [INVALID_PARAMETER];
    nothing is executed, the state is as before, and only the line that
    announces the call is logged. *)
Theorem handleToolCall_unknown_rejects call st :
  name call <> "get_weather_on_date" ->
  Map.get (name call) (tools st) = None ->
  handleToolCall call st =
    (Rejected (ApplicationError ("Unknown tool: " ++ name call) INVALID_PARAMETER),
     st,
     [Logger.Info ("Handling tool call: " ++ name call) (Obj [("args", args call)])]).
Proof.
  intros Halias Hfree. apply handleToolCall_unknown.
  unfold resolve. apply String.eqb_neq in Halias. now rewrite Halias, Hfree.
Qed.


(** The hypothesis on what [execute] throws cannot be dropped: reading
    [message] of [undefined] or [null] in the [catch] block throws in
    turn, and the promise of [handleToolCall] is rejected. *)
Lemma handleToolCall_nullish_rejection call st tool e w lines :
  resolve (name call) (tools st) = Some tool ->
  truthy tool = true ->
  invoke tool (args call) (world st) = (Rejected e, w, lines) ->
  thrownNullish e = true ->
  exists e', fst (fst (handleToolCall call st)) = Rejected e'.
Proof.
  intros Hres Htruthy Hrun Hnull.
  rewrite (handleToolCall_known _ _ _ Hres Htruthy), Hrun. cbv zeta.
  destruct e as [cls msg|[]]; try discriminate; simpl; eauto.
Qed.

(** A value that is falsy is no tool for [handleToolCall], bound or not. *)
Lemma handleToolCall_falsy call st tool :
  resolve (name call) (tools st) = Some tool ->
  truthy tool = false ->
  fst (fst (handleToolCall call st)) = Rejected (UnknownTool (name call)).
Proof.
  intros Hres Hfalsy. rewrite handleToolCall_unknown; [reflexivity|].
  rewrite Hres. simpl. now rewrite Hfalsy.
Qed.

(** [handleToolCall] never changes the registry. *)
Lemma handleToolCall_registry call st :
  tools (snd (fst (handleToolCall call st))) = tools st.
Proof.
  destruct (resolve (name call) (tools st)) as [tool|] eqn:Hres.
  - destruct (truthy tool) eqn:Htruthy.
    + rewrite (handleToolCall_known _ _ _ Hres Htruthy).
      destruct (invoke tool (args call) (world st)) as [[[result|e] w] lines];
        [reflexivity|].
      cbv zeta. now destruct (message_of e).
    + rewrite handleToolCall_unknown; [reflexivity|].
      rewrite Hres. simpl. now rewrite Htruthy.
  - rewrite handleToolCall_unknown; [reflexivity|]. now rewrite Hres.
Qed.

End Proofs.

(** The first example scenario of the spec. *)
Example handleToolCall_calc :
  fst (fst (handleToolCall
              (mkCall "calc"
                      (Obj [("op", Str "add"); ("a", Num 2); ("b", Num 2)])
                      (Str "x1"))
              Sample.registry))
  = Fulfilled (Obj [("functionResponses",
                     Arr [Obj [("response", Obj [("output", Str "4")]);
                               ("id", Str "x1")]])]).
Proof. reflexivity. Qed.

(** A registered object without [execute] shows at dispatch time: the
    [TypeError] of the call is caught and reported. *)
Example handleToolCall_hollow :
  fst (fst (handleToolCall (mkCall "hollow" (Obj []) (Str "x6"))
                           Sample.registry_with_hollow))
  = Fulfilled (envelope (Obj [("error", Str "tool.execute is not a function")])
                        (Str "x6")).
Proof. reflexivity. Qed.



(** The second example scenario of the spec: the call is refused with an
    exception, not answered with an envelope. *)
Lemma handleToolCall_unknown_counterexample :
  "doesNotExist" <> "get_weather_on_date" /\
  Map.get "doesNotExist" (tools Sample.registry) = None /\
  fst (fst (handleToolCall (mkCall "doesNotExist" (Obj []) (Str "x2"))
                           Sample.registry))
  = Rejected (ApplicationError "Unknown tool: doesNotExist" INVALID_PARAMETER) /\
  ~ (exists response st' lines,
       handleToolCall (mkCall "doesNotExist" (Obj []) (Str "x2")) Sample.registry
       = (Fulfilled response, st', lines)).
Proof.
  split; [discriminate|]. split; [reflexivity|]. split; [reflexivity|].
  intros (response & st' & lines & H). discriminate H.
Qed.

Lemma handleToolCall_unknown_rejects_witness :
  "doesNotExist" <> "get_weather_on_date" /\
  Map.get "doesNotExist" (tools Sample.registry) = None /\
  handleToolCall (mkCall "doesNotExist" (Obj []) (Str "x2")) Sample.registry =
    (Rejected (ApplicationError "Unknown tool: doesNotExist" INVALID_PARAMETER),
     Sample.registry,
     [Logger.Info "Handling tool call: doesNotExist" (Obj [("args", Obj [])])]).
Proof.
  split; [discriminate|]. split; [reflexivity|].
  apply (handleToolCall_unknown_rejects
           (mkCall "doesNotExist" (Obj []) (Str "x2")) Sample.registry).
  - discriminate.
  - reflexivity.
Defined.



End Dispatch.

(** ** The e-mail tool *)

Module EmailSender.
Import JS Tool ToolManager ErrorBoundary Registry.
Import EmailSenderTool.

(** Induction on a value, with the elements of an array. *)
Lemma value_induction (P : value -> Prop) :
  P Undefined -> P Null -> (forall b, P (Bool b)) -> (forall n, P (Num n)) ->
  (forall s, P (Str s)) ->
  (forall elems, Forall P elems -> P (Arr elems)) ->
  (forall props, P (Obj props)) ->
  forall v, P v.
Proof.
  intros HU HN HB HNum HS HA HO. fix IH 1.
  intros [| |b|n|s|elems|props];
    [exact HU | exact HN | apply HB | apply HNum | apply HS | | apply HO].
  apply HA. induction elems as [|x rest IHrest]; constructor; [apply IH | exact IHrest].
Qed.

(** A join that fails, fails as the conversion of one of its elements. *)
Lemma join_with_throws (P : thrown -> Prop) to_string sep elems e :
  Forall (fun x => forall e, to_string x = Throw e -> P e) elems ->
  join_with to_string sep elems = Throw e -> P e.
Proof.
  induction 1 as [|x rest Hx Hrest IH]; simpl; [discriminate|].
  assert (Helem : forall e,
            match x with Undefined | Null => Normal "" | _ => to_string x end
            = Throw e -> P e).
  { destruct x; try discriminate; exact Hx. }
  destruct (match x with Undefined | Null => Normal "" | _ => to_string x end)
    as [t|x'].
  - destruct rest as [|y rest']; [discriminate|].
    destruct (join_with to_string sep (y :: rest')); [discriminate|].
    intros [= <-]. now apply IH.
  - intros [= <-]. now apply Helem.
Qed.

(** A conversion to a string that fails, fails with a [TypeError]. *)
Lemma ToString_throws v : forall e,
  ToString v = Throw e -> exists text, e = TypeError text.
Proof.
  induction v as [| |b|n|s|elems IH|props] using value_induction;
    intros e; simpl; try discriminate.
  - destruct b; discriminate.
  - exact (join_with_throws (fun e => exists text, e = TypeError text)
             ToString "," elems e IH).
  - destruct (has_key "toString" props); [|discriminate].
    intros [= <-]. now eexists.
Qed.

Lemma join_throws sep elems e :
  join sep elems = Throw e -> exists text, e = TypeError text.
Proof.
  apply (join_with_throws (fun e => exists text, e = TypeError text)).
  apply Forall_forall. intros x _. apply ToString_throws.
Qed.




Section Proofs.
Context {World : Type}.
Variable nodemailer : Nodemailer World.
Variable process : Process.

(** The line logged at the head of [execute]. *)
Local Abbreviation executing args := (Logger.Info "Executing emailSender" args).

(** The [try] block, step by step. *)
Lemma send_cases args (w : World) :
  send nodemailer process args w =
  match destructure args with
  | Throw e => (Throw e, w, [executing args])
  | Normal (recipients, subject, body, attachment) =>
      match createTransport nodemailer (Cases.transportOptions process) with
      | Throw e => (Throw e, w, [executing args])
      | Normal transporter =>
          match recipients_join recipients with
          | Throw e => (Throw e, w, [executing args])
          | Normal to =>
              match sendMail transporter
                      (Cases.mailOptions process to subject body attachment) w with
              | (Rejected e, w1, l1) => (Throw e, w1, executing args :: l1)
              | (Fulfilled _, w1, l1) =>
                  match ToString subject with
                  | Throw e => (Throw e, w1, executing args :: l1)
                  | Normal subject_text =>
                      match ToString body with
                      | Throw e => (Throw e, w1, executing args :: l1)
                      | Normal body_text =>
                          match ToString (or_else attachment (Str "none")) with
                          | Throw e => (Throw e, w1, executing args :: l1)
                          | Normal attachment_text =>
                              let result :=
                                Cases.report to subject_text body_text attachment_text in
                              (Normal (Str result), w1,
                               executing args :: l1 ++ [Logger.Info result Undefined])%list
                          end
                      end
                  end
              end
          end
      end
  end.
Proof.
  unfold send, Eff.bind, Eff.pure, Eff.await, Eff.ret, Logger.info, Eff.tell.
  cbv beta iota zeta.
  destruct (destructure args) as [[[[recipients subject] body] attachment]|e];
    [|reflexivity].
  fold (Cases.transportOptions process).
  destruct (createTransport nodemailer (Cases.transportOptions process))
    as [transporter|e]; [|reflexivity].
  destruct (recipients_join recipients) as [to|e]; [|reflexivity].
  fold (Cases.mailOptions process to subject body attachment).
  destruct (sendMail transporter _ w) as [[[v|e] w1] l1]; [|reflexivity].
  destruct (ToString subject) as [subject_text|e];
    [|cbn [app]; now rewrite ?app_nil_r].
  destruct (ToString body) as [body_text|e];
    [|cbn [app]; now rewrite ?app_nil_r].
  destruct (ToString (or_else attachment (Str "none"))) as [attachment_text|e];
    [|cbn [app]; now rewrite ?app_nil_r].
  cbn [app]. reflexivity.
Qed.


(** [execute], case by case on its [try] block. *)
Lemma execute_cases args (w : World) :
  execute nodemailer process args w =
  match send nodemailer process args w with
  | (Normal result, w1, l1) => (Fulfilled result, w1, l1)
  | (Throw cause, w1, l1) =>
      let failed := Logger.Error "emailSender failed" cause in
      match message_of cause with
      | Normal message =>
          match ToString message with
          | Normal text =>
              (Rejected (Error ("Failed to send email: " ++ text)),
               w1, l1 ++ [failed])%list
          | Throw e => (Rejected e, w1, l1 ++ [failed])%list
          end
      | Throw e => (Rejected e, w1, l1 ++ [failed])%list
      end
  end.
Proof.
  unfold execute, Eff.async, Eff.tryCatch.
  destruct (send nodemailer process args w) as [[[result|cause] w1] l1];
    [reflexivity|].
  unfold fail, Eff.bind, Logger.error, Eff.tell, Eff.pure, Eff.throw.
  cbv beta iota zeta.
  destruct (message_of cause) as [message|e]; [|reflexivity].
  destruct (ToString message); reflexivity.
Qed.



End Proofs.


(** A refused mail, seen from the tool and from the dispatcher. *)
Example execute_smtp_down :
  fst (fst (execute Sample.smtp_down Sample.process Sample.mail 0))
  = Rejected (Error "Failed to send email: SMTP down") /\
  fst (fst (handleToolCall (mkCall "emailSender" Sample.mail (Str "x5"))
                           Sample.mailer))
  = Fulfilled (envelope (Obj [("error", Str "Failed to send email: SMTP down")])
                        (Str "x5")).
Proof. split; reflexivity. Qed.



End EmailSender.

(** ** More on registration *)

Module RegistryLaws.
Import JS Tool ToolManager ErrorBoundary Registry Cases.

Section Proofs.
Context {World : Type}.
Implicit Types (st : state World) (tool : toolInstance World) (name : string)
  (calls : list (string * toolInstance World)).

Lemma registrations_lookup calls : forall st name,
  Map.get name (tools (registrations calls st)) =
  match Map.get name (tools st) with
  | Some tool => Some tool
  | None => Map.get name calls
  end.
Proof.
  induction calls as [|[n t] rest IH]; intros st name; simpl registrations.
  - simpl. now destruct (Map.get name (tools st)).
  - rewrite IH. destruct (Map.has n (tools st)) eqn:Hn.
    + rewrite (Registration.registerTool_bound _ _ _ Hn). cbn [fst snd].
      destruct (Map.get name (tools st)) eqn:Hname; [reflexivity|].
      simpl. destruct (n =? name) eqn:E; [|reflexivity].
      apply String.eqb_eq in E. subst n.
      apply MapFacts.has_get in Hn. destruct Hn as [v Hv]. congruence.
    + rewrite (Registration.registerTool_fresh _ _ _ Hn). cbn [fst snd tools].
      rewrite <- (MapFacts.set_fresh n t _ Hn).
      simpl. destruct (n =? name) eqn:E.
      * apply String.eqb_eq in E. subst n.
        rewrite MapFacts.get_set_same.
        apply MapFacts.has_false_get in Hn. now rewrite Hn.
      * apply String.eqb_neq in E.
        now rewrite (MapFacts.get_set_other _ _ _ _ E).
Qed.

Lemma registerTool_grows name tool st :
  exists added,
    tools (snd (fst (registerTool name tool st))) = (tools st ++ added)%list /\
    length added <= 1.
Proof.
  destruct (Map.has name (tools st)) eqn:H.
  - rewrite (Registration.registerTool_bound _ _ _ H). exists []. simpl.
    split; [now rewrite app_nil_r | lia].
  - rewrite (Registration.registerTool_fresh _ _ _ H). exists [(name, tool)].
    simpl. split; [reflexivity | lia].
Qed.

(** X1. [new ToolManager()] never throws: whatever the fourteen default
    instances are, it returns a registry that binds the fourteen names, in
    the order of [registerDefaultTools], each to its instance, leaves the
    world as it was and logs one line per tool. *)
Theorem constructor_registers_defaults (new : defaultTools World) (w : World) :
  constructor new w =
  (Normal tt,
   mkState
     [("googleSearch", GoogleSearchTool new);
      ("weather", WeatherTool new);
      ("documentSaver", DocumentSaverTool new);
      ("emailSender", EmailSenderTool new);
      ("calculator", CalculatorTool new);
      ("unitConverter", UnitConverterTool new);
      ("timeConverter", TimeConverterTool new);
      ("currencyConverter", CurrencyConverterTool new);
      ("dateCalculator", DateCalculatorTool new);
      ("textSummarizer", TextSummarizerTool new);
      ("textTranslator", TextTranslatorTool new);
      ("randomGenerator", RandomGeneratorTool new);
      ("passwordGenerator", PasswordGeneratorTool new);
      ("listGenerator", ListGeneratorTool new)]
     w,
   map (fun name => Logger.Info ("Tool " ++ name ++ " registered successfully")
                                Undefined)
     ["googleSearch"; "weather"; "documentSaver"; "emailSender"; "calculator";
      "unitConverter"; "timeConverter"; "currencyConverter"; "dateCalculator";
      "textSummarizer"; "textTranslator"; "randomGenerator"; "passwordGenerator";
      "listGenerator"]).
Proof. reflexivity. Qed.


(** X3. [registerDefaultTools] is not repeatable: on a registry where
    "googleSearch" is bound, as it is after the constructor, it throws
    "Tool googleSearch is already registered" at its first line, registers
    nothing and logs nothing. *)
Theorem registerDefaultTools_twice (again : defaultTools World) st :
  Map.has "googleSearch" (tools st) = true ->
  registerDefaultTools again st =
  (Throw (ApplicationError "Tool googleSearch is already registered" INVALID_STATE),
   st, []).
Proof.
  intros Hbound. unfold registerDefaultTools. unfold Eff.bind at 1.
  now rewrite (Registration.registerTool_bound _ _ _ Hbound).
Qed.

(** X4. First registration wins: after any sequence of [registerTool]
    calls on an empty registry, a name is bound to the instance of the
    first call that used it (and to nothing if no call did), and the names
    of the registry are pairwise distinct. *)
Theorem registrations_first_wins calls (w : World) name :
  Map.get name (tools (registrations calls (mkState Map.empty w)))
  = Map.get name calls /\
  NoDup (Map.keys (tools (registrations calls (mkState Map.empty w)))).
Proof.
  split.
  - now rewrite registrations_lookup.
  - apply Registration.registrations_NoDup. constructor.
Qed.

(** X5. Registration only ever appends: after any sequence of
    [registerTool] calls the old registry is a prefix of the new one, at
    most one entry was added per call, and the world is untouched. *)
Theorem registrations_append_only calls : forall st,
  exists added,
    tools (registrations calls st) = (tools st ++ added)%list /\
    length added <= length calls /\
    world (registrations calls st) = world st.
Proof.
  induction calls as [|[n t] rest IH]; intros st; simpl registrations.
  - exists []. simpl. now rewrite app_nil_r.
  - destruct (IH (snd (fst (registerTool n t st)))) as (more & Htools & Hlen & Hworld).
    destruct (registerTool_grows n t st) as (one & Hone & Hlen1).
    exists (one ++ more)%list. rewrite Htools, Hone, <- app_assoc.
    split; [reflexivity|]. split.
    + rewrite length_app. simpl. lia.
    + now rewrite Hworld, Registration.registerTool_world.
Qed.

End Proofs.


Lemma registerDefaultTools_twice_witness :
  Map.has "googleSearch" (tools (snd (fst (constructor Cases.defaults 0)))) = true /\
  registerDefaultTools Cases.defaults (snd (fst (constructor Cases.defaults 0))) =
  (Throw (ApplicationError "Tool googleSearch is already registered" INVALID_STATE),
   snd (fst (constructor Cases.defaults 0)), []).
Proof.
  split; [reflexivity|].
  apply (registerDefaultTools_twice Cases.defaults
           (snd (fst (constructor Cases.defaults 0)))).
  reflexivity.
Defined.

End RegistryLaws.

(** ** More on dispatch *)

Module DispatchLaws.
Import JS Tool ToolManager ErrorBoundary Registry Cases.

Section Proofs.
Context {World : Type}.
Implicit Types (st : state World) (tool : toolInstance World)
  (call : functionCall).

Lemma resolve_key nm (m : Map.t (toolInstance World)) :
  resolve nm m = Map.get (key_of nm) m.
Proof. unfold resolve, key_of. now destruct (nm =? "get_weather_on_date"). Qed.

(** What a call settles with, in every case. *)
Lemma handleToolCall_outcome call st :
  fst (fst (handleToolCall call st)) =
  match resolve (name call) (tools st) with
  | Some tool =>
      if truthy tool
      then settled (fst (fst (invoke tool (args call) (world st)))) (id call)
      else Rejected (UnknownTool (name call))
  | None => Rejected (UnknownTool (name call))
  end.
Proof.
  destruct (resolve (name call) (tools st)) as [tool|] eqn:Hres.
  - destruct (truthy tool) eqn:Htruthy.
    + rewrite (Dispatch.handleToolCall_known _ _ _ Hres Htruthy).
      destruct (invoke tool (args call) (world st)) as [[[result|e] w] lines];
        [reflexivity|].
      cbv zeta. unfold settled. cbn [fst]. now destruct (message_of e).
    + rewrite Dispatch.handleToolCall_unknown; [reflexivity|].
      rewrite Hres. simpl. now rewrite Htruthy.
  - rewrite Dispatch.handleToolCall_unknown; [reflexivity|]. now rewrite Hres.
Qed.

(** The world a call leaves, in every case. *)
Lemma handleToolCall_world call st :
  world (snd (fst (handleToolCall call st))) =
  match resolve (name call) (tools st) with
  | Some tool =>
      if truthy tool
      then snd (fst (invoke tool (args call) (world st)))
      else world st
  | None => world st
  end.
Proof.
  destruct (resolve (name call) (tools st)) as [tool|] eqn:Hres.
  - destruct (truthy tool) eqn:Htruthy.
    + rewrite (Dispatch.handleToolCall_known _ _ _ Hres Htruthy).
      destruct (invoke tool (args call) (world st)) as [[[result|e] w] lines];
        [reflexivity|].
      cbv zeta. now destruct (message_of e).
    + rewrite Dispatch.handleToolCall_unknown; [reflexivity|].
      rewrite Hres. simpl. now rewrite Htruthy.
  - rewrite Dispatch.handleToolCall_unknown; [reflexivity|]. now rewrite Hres.
Qed.

Lemma handleToolCall_tools call st :
  tools (snd (fst (handleToolCall call st))) = tools st.
Proof.
  destruct (resolve (name call) (tools st)) as [tool|] eqn:Hres.
  - destruct (truthy tool) eqn:Htruthy.
    + rewrite (Dispatch.handleToolCall_known _ _ _ Hres Htruthy).
      destruct (invoke tool (args call) (world st)) as [[[result|e] w] lines];
        [reflexivity|].
      cbv zeta. now destruct (message_of e).
    + rewrite Dispatch.handleToolCall_unknown; [reflexivity|].
      rewrite Hres. simpl. now rewrite Htruthy.
  - rewrite Dispatch.handleToolCall_unknown; [reflexivity|]. now rewrite Hres.
Qed.

(** X6. Dispatch never touches the registry: after any call, whatever it
    settled with, the registry is the one before the call, and
    [getToolDeclarations] completes as it would have before the call. *)
Theorem handleToolCall_keeps_registry call st :
  tools (snd (fst (handleToolCall call st))) = tools st /\
  fst (fst (getToolDeclarations (snd (fst (handleToolCall call st)))))
  = fst (fst (getToolDeclarations st)).
Proof.
  pose proof (handleToolCall_tools call st) as Htools.
  split; [exact Htools|].
  unfold getToolDeclarations. rewrite Htools.
  now destruct (Map.forEach declare (tools st) []) as [[[u|e] acc] l].
Qed.


(** X8. A falsy value is never dispatched to: when the call name resolves
    to a registered value that is falsy ([0], the empty string, [false],
    [null], [undefined]), the call is refused with "Unknown tool: <name>"
    exactly as if nothing were registered, and the state is as before. *)
Theorem handleToolCall_falsy_value call st tool :
  resolve (name call) (tools st) = Some tool ->
  truthy tool = false ->
  handleToolCall call st =
  (Rejected (ApplicationError ("Unknown tool: " ++ name call) INVALID_PARAMETER),
   st,
   [Logger.Info ("Handling tool call: " ++ name call) (Obj [("args", args call)])]).
Proof.
  intros Hres Hfalsy. apply Dispatch.handleToolCall_unknown.
  rewrite Hres. simpl. now rewrite Hfalsy.
Qed.

(** X9. When [execute] rejects with [undefined] or [null], reading
    [error.message] in the [catch] block throws: [handleToolCall] rejects
    with a [TypeError] instead of answering, after the tool has acted on
    the world and the failure has been logged. *)
Theorem handleToolCall_nullish_cause call st tool v w lines :
  resolve (name call) (tools st) = Some tool ->
  truthy tool = true ->
  invoke tool (args call) (world st) = (Rejected (Raised v), w, lines) ->
  isNullish v = true ->
  exists text,
    handleToolCall call st =
    (Rejected (TypeError text),
     with_world w st,
     Logger.Info ("Handling tool call: " ++ name call) (Obj [("args", args call)])
     :: lines
     ++ [Logger.Error ("Tool execution failed: " ++ name call) (Raised v)])%list.
Proof.
  intros Hres Htruthy Hrun Hnull.
  rewrite (Dispatch.handleToolCall_known _ _ _ Hres Htruthy), Hrun. cbv zeta.
  destruct v; try discriminate; simpl; eexists; reflexivity.
Qed.




(** X13. A registration does not disturb the other names: a call whose
    registry key (its name, or "weather" for the alias) differs from the
    name just registered settles with the same outcome and leaves the
    same world as before the registration. *)
Theorem registerTool_frame nm tool st call :
  key_of (name call) <> nm ->
  let registered := snd (fst (registerTool nm tool st)) in
  fst (fst (handleToolCall call registered)) = fst (fst (handleToolCall call st)) /\
  world (snd (fst (handleToolCall call registered)))
  = world (snd (fst (handleToolCall call st))).
Proof.
  intros Hkey registered.
  assert (Hres : resolve (name call) (tools registered)
                 = resolve (name call) (tools st)).
  { rewrite !resolve_key. subst registered.
    destruct (Map.has nm (tools st)) eqn:H.
    - now rewrite (Registration.registerTool_bound _ _ _ H).
    - rewrite (Registration.registerTool_fresh _ _ _ H). cbn [fst snd tools].
      rewrite <- (MapFacts.set_fresh nm tool _ H).
      apply MapFacts.get_set_other. congruence. }
  assert (Hworld : world registered = world st).
  { apply Registration.registerTool_world. }
  now rewrite !handleToolCall_outcome, !handleToolCall_world, Hres, Hworld.
Qed.

Lemma same_execute_get (m m' : Map.t (toolInstance World)) :
  Forall2 (fun e e' => fst e = fst e' /\ same_execute (snd e) (snd e')) m m' ->
  forall k,
    match Map.get k m, Map.get k m' with
    | Some t, Some t' => same_execute t t'
    | None, None => True
    | _, _ => False
    end.
Proof.
  induction 1 as [|[k0 t] [k0' t'] rest rest' [Hk Ht] Hrest IH]; intros k.
  - exact I.
  - simpl in Hk, Ht. subst k0'. simpl.
    destruct (k0 =? k); [exact Ht | apply IH].
Qed.

(** X14. Dispatch reads [execute] and nothing else of a tool: on two
    registries with the same names whose instances have the same
    truthiness and the same [execute] member, in the same world, a call
    settles alike and leaves the same world, whatever the [getDeclaration]
    members are. *)
Theorem handleToolCall_ignores_getDeclaration call st st' :
  Forall2 (fun e e' => fst e = fst e' /\ same_execute (snd e) (snd e'))
          (tools st) (tools st') ->
  world st = world st' ->
  fst (fst (handleToolCall call st')) = fst (fst (handleToolCall call st)) /\
  world (snd (fst (handleToolCall call st')))
  = world (snd (fst (handleToolCall call st))).
Proof.
  intros Hsame Hworld.
  rewrite !handleToolCall_outcome, !handleToolCall_world, !resolve_key, <- Hworld.
  pose proof (same_execute_get _ _ Hsame (key_of (name call))) as Hk.
  destruct (Map.get (key_of (name call)) (tools st)) as [t|];
    destruct (Map.get (key_of (name call)) (tools st')) as [t'|];
    try contradiction; [|split; reflexivity].
  destruct Hk as [Htruthy Hexec]. rewrite <- Htruthy.
  unfold invoke. now rewrite <- Hexec.
Qed.

End Proofs.


Lemma handleToolCall_falsy_value_witness :
  resolve "zero" (tools Cases.registry_with_zero) = Some (Plain (Num 0)) /\
  truthy (World := Sample.World) (Plain (Num 0)) = false /\
  handleToolCall (mkCall "zero" (Obj []) (Str "y2")) Cases.registry_with_zero =
  (Rejected (ApplicationError "Unknown tool: zero" INVALID_PARAMETER),
   Cases.registry_with_zero,
   [Logger.Info "Handling tool call: zero" (Obj [("args", Obj [])])]).
Proof.
  split; [reflexivity|]. split; [reflexivity|].
  apply (handleToolCall_falsy_value (mkCall "zero" (Obj []) (Str "y2"))
           Cases.registry_with_zero (Plain (Num 0)));
    reflexivity.
Defined.

Lemma handleToolCall_nullish_cause_witness :
  resolve "thrower" (tools Cases.registry_with_thrower) = Some Cases.thrower /\
  invoke Cases.thrower (Obj []) 0 = (Rejected (Raised Undefined), 1, []) /\
  exists text,
    handleToolCall (mkCall "thrower" (Obj []) (Str "y3")) Cases.registry_with_thrower =
    (Rejected (TypeError text),
     with_world 1 Cases.registry_with_thrower,
     Logger.Info "Handling tool call: thrower" (Obj [("args", Obj [])])
     :: []
     ++ [Logger.Error "Tool execution failed: thrower" (Raised Undefined)])%list.
Proof.
  split; [reflexivity|]. split; [reflexivity|].
  apply (handleToolCall_nullish_cause (mkCall "thrower" (Obj []) (Str "y3"))
           Cases.registry_with_thrower Cases.thrower Undefined 1 []);
    reflexivity.
Defined.



Lemma registerTool_frame_witness :
  key_of "get_weather_on_date" <> "extra" /\
  let call := mkCall "get_weather_on_date" (Obj []) (Str "y6") in
  let registered := snd (fst (registerTool "extra" Sample.calc Sample.registry)) in
  fst (fst (handleToolCall call registered))
  = fst (fst (handleToolCall call Sample.registry)) /\
  world (snd (fst (handleToolCall call registered)))
  = world (snd (fst (handleToolCall call Sample.registry))).
Proof.
  split; [discriminate|].
  apply (registerTool_frame "extra" Sample.calc Sample.registry
           (mkCall "get_weather_on_date" (Obj []) (Str "y6"))).
  discriminate.
Defined.

Lemma handleToolCall_ignores_getDeclaration_witness :
  let call := mkCall "calc" (Obj []) (Str "y7") in
  world Sample.registry = world Cases.registry_undeclared /\
  fst (fst (handleToolCall call Cases.registry_undeclared))
  = fst (fst (handleToolCall call Sample.registry)) /\
  world (snd (fst (handleToolCall call Cases.registry_undeclared)))
  = world (snd (fst (handleToolCall call Sample.registry))).
Proof.
  split; [reflexivity|].
  apply (handleToolCall_ignores_getDeclaration
           (mkCall "calc" (Obj []) (Str "y7")) Sample.registry
           Cases.registry_undeclared).
  - repeat (apply Forall2_cons; [split; [reflexivity | split; reflexivity]|]).
    apply Forall2_nil.
  - reflexivity.
Defined.

End DispatchLaws.

(** ** More on declarations *)

Module DeclarationLaws.
Import JS Tool ToolManager ErrorBoundary Registry Cases.

Section Proofs.
Context {World : Type}.
Implicit Types (st : state World) (tool : toolInstance World) (name : string)
  (m before after : Map.t (toolInstance World)) (acc out : list value).

Lemma declare_throws tool name acc e :
  declaration_throws tool e -> declare tool name acc = (Throw e, acc, []).
Proof.
  rewrite Declarations.declare_step.
  intros [Hread | (g & Hread & Htruthy & Hcall)]; rewrite Hread; [reflexivity|].
  now rewrite Htruthy, Hcall.
Qed.

Lemma declare_returns tool name acc declaration :
  has_getDeclaration tool = true ->
  declaration_of tool = Normal declaration ->
  declare tool name acc = (Normal tt, (acc ++ [record_for name declaration])%list, []).
Proof.
  unfold has_getDeclaration, declaration_of. rewrite Declarations.declare_step.
  destruct (get_getDeclaration tool) as [g|e]; [|discriminate].
  intros -> ->. reflexivity.
Qed.

(** The loop stops at the first tool on which the callback throws. *)
Lemma forEach_declare_throws before name tool after e : forall acc,
  Forall (fun entry => declares_safely (snd entry)) before ->
  declaration_throws tool e ->
  exists acc',
    Map.forEach declare (before ++ (name, tool) :: after)%list acc
    = (Throw e, acc', []).
Proof.
  induction before as [|[k v] rest IH]; intros acc Hsafe Hthrows.
  - simpl app. rewrite Declarations.forEach_cons, (declare_throws _ _ _ _ Hthrows).
    now exists acc.
  - inversion Hsafe as [|? ? Hv Hrest]; subst. simpl in Hv.
    simpl app. rewrite Declarations.forEach_cons.
    destruct Hv as [Hlack | (f & d & Hg & Hf)].
    + rewrite (Declarations.declare_lacking _ _ _ Hlack).
      destruct (IH acc Hrest Hthrows) as [acc' ->]. now exists acc'.
    + rewrite Declarations.declare_step, Hg. simpl. rewrite Hf.
      destruct (IH (acc ++ [if k =? "weather"
                            then Obj [("functionDeclarations", d)]
                            else Obj [(k, d)]])%list Hrest Hthrows) as [acc' ->].
      now exists acc'.
Qed.

(** The loop over a registry with one more entry at its end. *)
Lemma forEach_declare_snoc m name tool : forall acc acc1,
  Map.forEach declare m acc = (Normal tt, acc1, []) ->
  Map.forEach declare (m ++ [(name, tool)])%list acc =
  (let '(r, acc2, lines) := declare tool name acc1 in (r, acc2, lines)).
Proof.
  induction m as [|[k v] rest IH]; intros acc acc1.
  - simpl. unfold Eff.ret. intros [= <-].
    unfold Eff.bind. destruct (declare tool name acc) as [[[u|e] acc2] l2].
    + unfold Eff.ret. destruct u. now rewrite app_nil_r.
    + reflexivity.
  - simpl app. rewrite !Declarations.forEach_cons.
    destruct (declare v k acc) as [[[u|e] acc0] l0]; [|discriminate].
    destruct (Map.forEach declare rest acc0) as [[r acc2] l2] eqn:Erest.
    intros [= -> -> Hl]. apply app_eq_nil in Hl. destruct Hl as [-> ->].
    rewrite (IH _ _ Erest).
    now destruct (declare tool name acc1) as [[r' acc'] l'].
Qed.

(** X15. One tool spoils the list: if the callback throws on a registered
    tool (its instance is [null] or [undefined], or its [getDeclaration] is
    truthy but no function, or the function throws) and does not on the
    tools registered before it, [getToolDeclarations] throws that error and
    returns no list, whatever the other tools declare. *)
Theorem getToolDeclarations_throws before name tool after (w : World) e :
  Forall (fun entry => declares_safely (snd entry)) before ->
  declaration_throws tool e ->
  getToolDeclarations (mkState (before ++ (name, tool) :: after)%list w)
  = (Throw e, mkState (before ++ (name, tool) :: after)%list w, []).
Proof.
  intros Hsafe Hthrows. unfold getToolDeclarations. cbn [tools].
  destruct (forEach_declare_throws before name tool after e [] Hsafe Hthrows)
    as [acc' ->].
  reflexivity.
Qed.

(** X16. Registration and declarations compose: after [registerTool] has
    bound a free name, [getToolDeclarations] returns the list it returned
    before when the new instance has no [getDeclaration], that list with
    the record of the new tool appended when it has one that returns, and
    throws what the callback throws on the new instance otherwise. *)
Theorem declarations_after_registration nm tool st out :
  Map.has nm (tools st) = false ->
  fst (fst (getToolDeclarations st)) = Normal out ->
  let registered := snd (fst (registerTool nm tool st)) in
  (lacks_getDeclaration tool = true ->
   fst (fst (getToolDeclarations registered)) = Normal out) /\
  (forall declaration,
     has_getDeclaration tool = true ->
     declaration_of tool = Normal declaration ->
     fst (fst (getToolDeclarations registered))
     = Normal (out ++ [record_for nm declaration])%list) /\
  (forall e,
     declaration_throws tool e ->
     fst (fst (getToolDeclarations registered)) = Throw e).
Proof.
  intros Hfree Hout registered.
  assert (Hrun : Map.forEach declare (tools st) [] = (Normal tt, out, [])).
  { unfold getToolDeclarations in Hout.
    pose proof (Declarations.forEach_declare_silent (tools st) []) as Hsilent.
    destruct (Map.forEach declare (tools st) []) as [[[[]|e] acc] l];
      simpl in *; congruence. }
  assert (Hreg : tools registered = (tools st ++ [(nm, tool)])%list).
  { subst registered. now rewrite (Registration.registerTool_fresh _ _ _ Hfree). }
  assert (Hget : fst (fst (getToolDeclarations registered)) =
                 match declare tool nm out with
                 | (Normal _, all, _) => Normal all
                 | (Throw e, _, _) => Throw e
                 end).
  { unfold getToolDeclarations. rewrite Hreg, (forEach_declare_snoc _ _ _ _ _ Hrun).
    now destruct (declare tool nm out) as [[[u|e] acc] l]. }
  rewrite Hget. repeat split.
  - intros Hlack. now rewrite (Declarations.declare_lacking _ _ _ Hlack).
  - intros declaration Hhas Hdecl.
    now rewrite (declare_returns _ _ _ _ Hhas Hdecl).
  - intros e Hthrows. now rewrite (declare_throws _ _ _ _ Hthrows).
Qed.

End Proofs.

Lemma getToolDeclarations_throws_witness :
  Forall (fun entry => declares_safely (snd entry)) [("calc", Sample.calc)] /\
  (exists text, declaration_throws Cases.broken (TypeError text)) /\
  getToolDeclarations
    (mkState ([("calc", Sample.calc)] ++
              ("broken", Cases.broken) :: [("weather", Sample.weather)])%list 0)
  = (Throw (TypeError "tool.getDeclaration is not a function"),
     mkState ([("calc", Sample.calc)] ++
              ("broken", Cases.broken) :: [("weather", Sample.weather)])%list 0,
     []).
Proof.
  assert (Hsafe : Forall (fun entry : string * toolInstance Sample.World =>
                            declares_safely (snd entry)) [("calc", Sample.calc)]).
  { apply Forall_cons; [|apply Forall_nil].
    right. eexists _, _. split; reflexivity. }
  assert (Hthrows : declaration_throws Cases.broken
                      (TypeError "tool.getDeclaration is not a function")).
  { right. eexists. repeat split. }
  split; [exact Hsafe|]. split; [eexists; exact Hthrows|].
  apply (getToolDeclarations_throws [("calc", Sample.calc)] "broken" Cases.broken
           [("weather", Sample.weather)] 0 _ Hsafe Hthrows).
Defined.

Lemma declarations_after_registration_witness :
  Map.has "extra" (tools Sample.registry) = false /\
  let out := [Obj [("calc", Obj [("name", Str "calc")])];
              Obj [("functionDeclarations", Obj [("name", Str "get_weather_on_date")])];
              Obj [("failing", Obj [("name", Str "failing")])]] in
  fst (fst (getToolDeclarations Sample.registry)) = Normal out /\
  let registered := snd (fst (registerTool "extra" Sample.calc Sample.registry)) in
  (lacks_getDeclaration Sample.calc = true ->
   fst (fst (getToolDeclarations registered)) = Normal out) /\
  (forall declaration,
     has_getDeclaration Sample.calc = true ->
     declaration_of Sample.calc = Normal declaration ->
     fst (fst (getToolDeclarations registered))
     = Normal (out ++ [record_for "extra" declaration])%list) /\
  (forall e,
     declaration_throws Sample.calc e ->
     fst (fst (getToolDeclarations registered)) = Throw e).
Proof.
  split; [reflexivity|]. split; [reflexivity|].
  apply (declarations_after_registration "extra" Sample.calc Sample.registry);
    reflexivity.
Defined.

End DeclarationLaws.


(** ** More on the e-mail tool *)

Module EmailLaws.
Import JS Tool ToolManager ErrorBoundary Registry Cases.
Import EmailSenderTool.

Section Proofs.
Context {World : Type}.
Variable nodemailer : Nodemailer World.
Variable process : Process.

Lemma destructure_object props :
  destructure (Obj props) =
  Normal (lookup "recipients" props, lookup "subject" props,
          lookup "body" props, lookup "attachment" props).
Proof. reflexivity. Qed.

Lemma destructure_nullish args :
  isNullish args = true -> exists text, destructure args = Throw (TypeError text).
Proof.
  destruct args; try discriminate; intros _; eexists; reflexivity.
Qed.

Lemma recipients_join_not_array recipients :
  isArray recipients = false ->
  exists text, recipients_join recipients = Throw (TypeError text).
Proof.
  destruct recipients; try discriminate; intros _; eexists; reflexivity.
Qed.

(** X17. The mail that is sent: for an arguments object whose [recipients]
    is an array, when the recipients, the subject, the body and the
    attachment (or "none") convert to strings, the transport is made and
    [sendMail] fulfils, [sendMail] was given [from], [to] (the recipients
    joined by ", "), [subject], [text] and [attachments] (one attachment
    named "attachment" when [attachment] is truthy, none otherwise), and
    [execute] fulfils with the report "Email sent to ...", which it also
    logs; what [sendMail] fulfilled with is dropped. *)
Theorem execute_sends props elems to subject body attachment transporter
  (w : World) v w1 l1 :
  lookup "recipients" props = Arr elems ->
  join ", " elems = Normal to ->
  ToString (lookup "subject" props) = Normal subject ->
  ToString (lookup "body" props) = Normal body ->
  ToString (or_else (lookup "attachment" props) (Str "none")) = Normal attachment ->
  createTransport nodemailer (transportOptions process) = Normal transporter ->
  sendMail transporter
    (mailOptions process to (lookup "subject" props)
                 (lookup "body" props) (lookup "attachment" props)) w
  = (Fulfilled v, w1, l1) ->
  execute nodemailer process (Obj props) w =
  (Fulfilled (Str ("Email sent to " ++ to ++ " with subject: " ++ subject
                   ++ " and body: " ++ body ++ ". Attachment: " ++ attachment)),
   w1,
   Logger.Info "Executing emailSender" (Obj props)
   :: l1
   ++ [Logger.Info ("Email sent to " ++ to ++ " with subject: " ++ subject
                    ++ " and body: " ++ body ++ ". Attachment: " ++ attachment)
                   Undefined])%list.
Proof.
  intros Hrec Hjoin Hsubject Hbody Hattachment Hcreate Hsend.
  rewrite EmailSender.execute_cases, EmailSender.send_cases, destructure_object.
  rewrite Hcreate, Hrec. cbn [recipients_join].
  now rewrite Hjoin, Hsend, Hsubject, Hbody, Hattachment.
Qed.

(** X18. No mail without recipients: when the [recipients] of the
    arguments is not an array, [execute] makes the transport all the same,
    then fails at [recipients.join]; it rejects with "Failed to send
    email: " and the text of the [TypeError], [sendMail] is not called and
    the world is as before. *)
Theorem execute_bad_recipients args recipients transporter (w : World) :
  isNullish args = false ->
  get args "recipients" = Normal recipients ->
  isArray recipients = false ->
  createTransport nodemailer (transportOptions process) = Normal transporter ->
  exists text,
    execute nodemailer process args w =
    (Rejected (Error ("Failed to send email: " ++ text)),
     w,
     [Logger.Info "Executing emailSender" args;
      Logger.Error "emailSender failed" (TypeError text)]).
Proof.
  intros Hargs Hget Harray Hcreate.
  destruct (recipients_join_not_array _ Harray) as [text Hjoin].
  exists text.
  rewrite EmailSender.execute_cases, EmailSender.send_cases.
  assert (Hd : exists subject body attachment,
             destructure args = Normal (recipients, subject, body, attachment)).
  { unfold destructure. rewrite Hargs, Hget.
    destruct args; try discriminate; simpl; eauto. }
  destruct Hd as (subject & body & attachment & ->).
  now rewrite Hcreate, Hjoin.
Qed.

(** X19. No arguments, no transport: called with [undefined] or [null],
    [execute] fails at the destructuring, before it touches [nodemailer];
    it rejects with "Failed to send email: " and the text of the
    [TypeError], and the world is as before. *)
Theorem execute_without_args args (w : World) :
  isNullish args = true ->
  exists text,
    execute nodemailer process args w =
    (Rejected (Error ("Failed to send email: " ++ text)),
     w,
     [Logger.Info "Executing emailSender" args;
      Logger.Error "emailSender failed" (TypeError text)]).
Proof.
  intros Hargs. destruct (destructure_nullish _ Hargs) as [text Hd].
  exists text.
  now rewrite EmailSender.execute_cases, EmailSender.send_cases, Hd.
Qed.

(** X20. No mail without a transport: when [createTransport] throws an
    error whose message can be read and converted to a string, [execute]
    rejects with "Failed to send email: " and that message, logs the error
    itself, does not call [sendMail] and leaves the world as before. *)
Theorem execute_no_transport args (w : World) e message text :
  isNullish args = false ->
  createTransport nodemailer (transportOptions process) = Throw e ->
  message_of e = Normal message ->
  ToString message = Normal text ->
  execute nodemailer process args w =
  (Rejected (Error ("Failed to send email: " ++ text)),
   w,
   [Logger.Info "Executing emailSender" args;
    Logger.Error "emailSender failed" e]).
Proof.
  intros Hargs Hcreate Hmessage Htext.
  rewrite EmailSender.execute_cases, EmailSender.send_cases.
  assert (Hd : exists parts, destructure args = Normal parts).
  { unfold destructure. rewrite Hargs. destruct args; try discriminate; simpl; eauto. }
  destruct Hd as ([[[recipients subject] body] attachment] & ->).
  rewrite Hcreate. cbv zeta. now rewrite Hmessage, Htext.
Qed.

(** X21. The outcomes of [execute] are of three kinds only, with any
    [nodemailer] at all: it fulfils with a string that begins with "Email
    sent to ", or rejects with a new [Error] whose message begins with
    "Failed to send email: ", or rejects with a [TypeError] of the engine
    (the [catch] block could not read or convert the message). *)
Theorem execute_outcomes args (w : World) :
  match fst (fst (execute nodemailer process args w)) with
  | Fulfilled v => exists rest, v = Str ("Email sent to " ++ rest)
  | Rejected e =>
      (exists rest, e = Error ("Failed to send email: " ++ rest)) \/
      (exists text, e = TypeError text)
  end.
Proof.
  rewrite EmailSender.execute_cases.
  destruct (send nodemailer process args w) as [[[result|cause] w1] l1] eqn:Es.
  - cbn [fst]. rewrite EmailSender.send_cases in Es.
    destruct (destructure args) as [[[[recipients subject] body] attachment]|e];
      [|discriminate].
    destruct (createTransport nodemailer (transportOptions process));
      [|discriminate].
    destruct (recipients_join recipients) as [to|e]; [|discriminate].
    destruct (sendMail _ _ w) as [[[v|e] w2] l2]; [|discriminate].
    destruct (ToString subject); [|discriminate].
    destruct (ToString body); [|discriminate].
    destruct (ToString (or_else attachment (Str "none"))); [|discriminate].
    injection Es as <- _ _. eexists. unfold report. reflexivity.
  - cbv zeta. destruct (message_of cause) as [message|e] eqn:Em; cbn [fst].
    + destruct (ToString message) as [text|e] eqn:Et; cbn [fst].
      * left. now exists text.
      * right. exact (EmailSender.ToString_throws _ _ Et).
    + right. destruct cause as [cls msg|v]; [discriminate|].
      destruct v; simpl in Em; try discriminate; injection Em as <-; now eexists.
Qed.

(** X22. No mail to a recipient that cannot be written: when an element of
    the [recipients] array cannot be converted to a string,
    [recipients.join] throws while [mailOptions] is being built; [execute]
    rejects with "Failed to send email: " and the text of the [TypeError],
    [sendMail] is not called and the world is as before. *)
Theorem execute_unprintable_recipient props elems e transporter (w : World) :
  lookup "recipients" props = Arr elems ->
  join ", " elems = Throw e ->
  createTransport nodemailer (transportOptions process) = Normal transporter ->
  exists text,
    e = TypeError text /\
    execute nodemailer process (Obj props) w =
    (Rejected (Error ("Failed to send email: " ++ text)),
     w,
     [Logger.Info "Executing emailSender" (Obj props);
      Logger.Error "emailSender failed" (TypeError text)]).
Proof.
  intros Hrec Hjoin Hcreate.
  destruct (EmailSender.join_throws _ _ _ Hjoin) as [text ->].
  exists text. split; [reflexivity|].
  rewrite EmailSender.execute_cases, EmailSender.send_cases, destructure_object.
  rewrite Hcreate, Hrec. cbn [recipients_join]. now rewrite Hjoin.
Qed.

(** X23. Sent, yet reported as failed: when the mail has gone ([sendMail]
    fulfilled) and the subject, the body or the attachment cannot be
    converted to a string for the report, [execute] rejects with "Failed
    to send email: " and the text of the [TypeError], in the world that
    [sendMail] left. *)
Theorem execute_sent_then_fails props elems to e transporter (w : World) v w1 l1 :
  lookup "recipients" props = Arr elems ->
  join ", " elems = Normal to ->
  createTransport nodemailer (transportOptions process) = Normal transporter ->
  sendMail transporter
    (mailOptions process to (lookup "subject" props)
                 (lookup "body" props) (lookup "attachment" props)) w
  = (Fulfilled v, w1, l1) ->
  (ToString (lookup "subject" props) = Throw e \/
   (exists subject, ToString (lookup "subject" props) = Normal subject) /\
   (ToString (lookup "body" props) = Throw e \/
    (exists body, ToString (lookup "body" props) = Normal body) /\
    ToString (or_else (lookup "attachment" props) (Str "none")) = Throw e)) ->
  exists text,
    e = TypeError text /\
    execute nodemailer process (Obj props) w =
    (Rejected (Error ("Failed to send email: " ++ text)),
     w1,
     Logger.Info "Executing emailSender" (Obj props)
     :: l1 ++ [Logger.Error "emailSender failed" (TypeError text)])%list.
Proof.
  intros Hrec Hjoin Hcreate Hsend Hthrows.
  assert (Htype : exists text, e = TypeError text).
  { destruct Hthrows as [H | [_ [H | [_ H]]]];
      exact (EmailSender.ToString_throws _ _ H). }
  destruct Htype as [text ->]. exists text. split; [reflexivity|].
  rewrite EmailSender.execute_cases, EmailSender.send_cases, destructure_object.
  rewrite Hcreate, Hrec. cbn [recipients_join]. rewrite Hjoin, Hsend.
  destruct Hthrows as [H | [[subject Hs] [H | [[body Hb] H]]]].
  - now rewrite H.
  - now rewrite Hs, H.
  - now rewrite Hs, Hb, H.
Qed.

End Proofs.

Lemma execute_sends_witness :
  let props := [("recipients", Arr [Str "a@example.org"; Str "b@example.org"]);
                ("subject", Str "hello");
                ("body", Num 1000000000000000000000)] in
  let transporter :=
    mkTransporter (fun (_ : value) (w : Sample.World) =>
      (Fulfilled (Obj [("response", Str "250 OK")]), S w, [])) in
  createTransport Cases.smtp_up (transportOptions Sample.process) = Normal transporter /\
  execute Cases.smtp_up Sample.process (Obj props) 0 =
  (Fulfilled (Str "Email sent to a@example.org, b@example.org with subject: hello and body: 1e+21. Attachment: none"),
   1,
   [Logger.Info "Executing emailSender" (Obj props);
    Logger.Info "Email sent to a@example.org, b@example.org with subject: hello and body: 1e+21. Attachment: none"
                Undefined]).
Proof.
  split; [reflexivity|].
  apply (execute_sends Cases.smtp_up Sample.process
           [("recipients", Arr [Str "a@example.org"; Str "b@example.org"]);
            ("subject", Str "hello");
            ("body", Num 1000000000000000000000)]
           [Str "a@example.org"; Str "b@example.org"]
           "a@example.org, b@example.org" "hello" "1e+21" "none"
           (mkTransporter (fun (_ : value) (w : Sample.World) =>
              (Fulfilled (Obj [("response", Str "250 OK")]), S w, [])))
           0 (Obj [("response", Str "250 OK")]) 1 []);
    reflexivity.
Defined.

Lemma execute_bad_recipients_witness :
  let args := Obj [("recipients", Str "a@example.org"); ("subject", Str "hello")] in
  get args "recipients" = Normal (Str "a@example.org") /\
  exists text,
    execute Cases.smtp_up Sample.process args 0 =
    (Rejected (Error ("Failed to send email: " ++ text)),
     0,
     [Logger.Info "Executing emailSender" args;
      Logger.Error "emailSender failed" (TypeError text)]).
Proof.
  split; [reflexivity|].
  apply (execute_bad_recipients Cases.smtp_up Sample.process
           (Obj [("recipients", Str "a@example.org"); ("subject", Str "hello")])
           (Str "a@example.org")
           (mkTransporter (fun (_ : value) (w : Sample.World) =>
              (Fulfilled (Obj [("response", Str "250 OK")]), S w, [])))
           0);
    reflexivity.
Defined.

Lemma execute_without_args_witness :
  isNullish Undefined = true /\
  exists text,
    execute Cases.smtp_up Sample.process Undefined 0 =
    (Rejected (Error ("Failed to send email: " ++ text)),
     0,
     [Logger.Info "Executing emailSender" Undefined;
      Logger.Error "emailSender failed" (TypeError text)]).
Proof.
  split; [reflexivity|].
  apply (execute_without_args Cases.smtp_up Sample.process Undefined 0).
  reflexivity.
Defined.

Lemma execute_no_transport_witness :
  createTransport Cases.no_transport (transportOptions Sample.process)
  = Throw (Error "unsupported service") /\
  execute Cases.no_transport Sample.process Sample.mail 0 =
  (Rejected (Error "Failed to send email: unsupported service"),
   0,
   [Logger.Info "Executing emailSender" Sample.mail;
    Logger.Error "emailSender failed" (Error "unsupported service")]).
Proof.
  split; [reflexivity|].
  apply (execute_no_transport Cases.no_transport Sample.process Sample.mail 0
           (Error "unsupported service") (Str "unsupported service")
           "unsupported service");
    reflexivity.
Defined.

Lemma execute_unprintable_recipient_witness :
  let props := [("recipients", Arr [Str "a@example.org"; Cases.unprintable]);
                ("subject", Str "hello"); ("body", Str "world")] in
  join ", " [Str "a@example.org"; Cases.unprintable]
  = Throw (TypeError "Cannot convert object to primitive value") /\
  exists text,
    TypeError "Cannot convert object to primitive value" = TypeError text /\
    execute Cases.smtp_up Sample.process (Obj props) 0 =
    (Rejected (Error ("Failed to send email: " ++ text)),
     0,
     [Logger.Info "Executing emailSender" (Obj props);
      Logger.Error "emailSender failed" (TypeError text)]).
Proof.
  split; [reflexivity|].
  apply (execute_unprintable_recipient Cases.smtp_up Sample.process
           [("recipients", Arr [Str "a@example.org"; Cases.unprintable]);
            ("subject", Str "hello"); ("body", Str "world")]
           [Str "a@example.org"; Cases.unprintable]
           (TypeError "Cannot convert object to primitive value")
           (mkTransporter (fun (_ : value) (w : Sample.World) =>
              (Fulfilled (Obj [("response", Str "250 OK")]), S w, [])))
           0);
    reflexivity.
Defined.

Lemma execute_sent_then_fails_witness :
  let props := [("recipients", Arr [Str "a@example.org"]);
                ("subject", Cases.unprintable); ("body", Str "world")] in
  ToString Cases.unprintable
  = Throw (TypeError "Cannot convert object to primitive value") /\
  exists text,
    TypeError "Cannot convert object to primitive value" = TypeError text /\
    execute Cases.smtp_up Sample.process (Obj props) 0 =
    (Rejected (Error ("Failed to send email: " ++ text)),
     1,
     Logger.Info "Executing emailSender" (Obj props)
     :: [] ++ [Logger.Error "emailSender failed" (TypeError text)])%list.
Proof.
  split; [reflexivity|].
  apply (execute_sent_then_fails Cases.smtp_up Sample.process
           [("recipients", Arr [Str "a@example.org"]);
            ("subject", Cases.unprintable); ("body", Str "world")]
           [Str "a@example.org"] "a@example.org"
           (TypeError "Cannot convert object to primitive value")
           (mkTransporter (fun (_ : value) (w : Sample.World) =>
              (Fulfilled (Obj [("response", Str "250 OK")]), S w, [])))
           0 (Obj [("response", Str "250 OK")]) 1 []);
    try reflexivity.
  left. reflexivity.
Defined.

End EmailLaws.
